(** * backend-nodejs: registration, login and owner-scoped posts

    A shallow embedding of [src/app.js]: the two Mongoose models, the session
    credential, the two guards ([authenticateJWT], [requireAuth]) and the
    route handlers, followed by the properties of the specification.

    The three libraries the program is glue over are modelled by their
    contracts, as far as [app.js] uses them:
    - the document store (Mongoose over MongoDB) is a pair of collections,
      each a list of documents in insertion order, with a counter that hands
      out fresh [_id]s; a query filter is a boolean predicate on documents,
      once its [_id] has been cast; an update of a post casts its text to the
      [String] of the schema before it queries, and a store call settles as
      a promise does, a failed cast rejecting it;
    - a JSON Web Token is the signed payload together with the key that signed
      it; verification compares that key and the expiry claim with the clock;
    - the session is the [token] slot of [req.session]. *)

From Stdlib Require Import ZArith List String DecimalString Bool Lia.
Import ListNotations.

Local Open Scope string_scope.
Local Open Scope list_scope.
Local Open Scope Z_scope.

(** ** Values of a request body *)

(** What [express.json()] can put in a field of [req.body]; [JUndefined] is
    the value of a field that is absent.  A number is an integer of the safe
    range (up to 2^53 - 1 in absolute value). *)
#[local] Unset Elimination Schemes.
Inductive JsValue : Type :=
| JUndefined
| JNull
| JBool (b : bool)
| JNum (n : Z)
| JStr (s : string)
| JArr (items : list JsValue)
| JObj (fields : list (string * JsValue)).
#[local] Set Elimination Schemes.

(** JavaScript's [!v] is [negb (truthy v)]. *)
Definition truthy (v : JsValue) : bool :=
  match v with
  | JUndefined | JNull => false
  | JBool b => b
  | JNum n => negb (n =? 0)
  | JStr s => negb (String.eqb s EmptyString)
  | JArr _ | JObj _ => true
  end.

Definition typeof (v : JsValue) : string :=
  match v with
  | JUndefined => "undefined"
  | JNull => "object"
  | JBool _ => "boolean"
  | JNum _ => "number"
  | JStr _ => "string"
  | JArr _ | JObj _ => "object"
  end.

(** ** Documents *)

Definition ObjectId := N.

Module User.
Record t : Type := mk
  { _id : ObjectId; username : string; email : string; password : string }.
End User.

(** The schema declares [text] a [String]: what reaches the record is a
    string, from Create, or what the cast of an Update leaves, a string or
    [null]. *)
Module Post.
Record t : Type := mk
  { _id : ObjectId; userId : ObjectId; text : JsValue }.
End Post.

(** ** The document store *)

Record Db : Type := mkDb
  { users : list User.t; posts : list Post.t; next_oid : ObjectId }.

Definition empty_db : Db := mkDb [] [] 0%N.

(** How an awaited store call settles; [Rejected] is what the handlers'
    [catch] blocks receive. *)
Inductive Settled (A : Type) : Type :=
| Resolved (a : A)
| Rejected.
Arguments Resolved {A} a.
Arguments Rejected {A}.

(** Replace the first document that satisfies [f] by its image under [upd];
    the result is the updated document (option [new: true]). *)
Fixpoint update_first (f : Post.t -> bool) (upd : Post.t -> Post.t)
    (l : list Post.t) : option Post.t * list Post.t :=
  match l with
  | [] => (None, [])
  | d :: ds =>
      if f d then (Some (upd d), upd d :: ds)
      else let (r, ds') := update_first f upd ds in (r, d :: ds')
  end.

(** Remove the first document that satisfies [f] and return it. *)
Fixpoint delete_first (f : Post.t -> bool) (l : list Post.t)
    : option Post.t * list Post.t :=
  match l with
  | [] => (None, [])
  | d :: ds =>
      if f d then (Some d, ds)
      else let (r, ds') := delete_first f ds in (r, d :: ds')
  end.

Module UserModel.
Definition findOne (f : User.t -> bool) (db : Db) : Settled (option User.t) :=
  Resolved (find f (users db)).

(** [new User({username, email, password})] followed by [save()]. *)
Definition create (username email password : string) (db : Db)
    : Settled (User.t * Db) :=
  let doc := User.mk (next_oid db) username email password in
  Resolved (doc, mkDb (users db ++ [doc]) (posts db) (N.succ (next_oid db))).
End UserModel.

(** [Number.prototype.toString] on an integer of the safe range: its decimal
    digits, with the sign. *)
Definition number_to_string (n : Z) : string :=
  NilZero.string_of_int (Z.to_int n).

(** What Mongoose makes of the value of [text] in an update, the path being
    a [String]: a key without a value is dropped from the update
    ([Resolved None]); [null] and strings go through; booleans and numbers
    become their string; arrays and objects do not cast, which rejects the
    call with a CastError. *)
Definition cast_text (v : JsValue) : Settled (option JsValue) :=
  match v with
  | JUndefined => Resolved None
  | JNull => Resolved (Some JNull)
  | JBool b => Resolved (Some (JStr (if b then "true" else "false")))
  | JNum n => Resolved (Some (JStr (number_to_string n)))
  | JStr s => Resolved (Some (JStr s))
  | JArr _ | JObj _ => Rejected
  end.

Definition set_text (text : JsValue) (p : Post.t) : Post.t :=
  Post.mk (Post._id p) (Post.userId p) text.

Module PostModel.
(** [new Post({userId, text})] followed by [save()]. *)
Definition create (userId : ObjectId) (text : JsValue) (db : Db)
    : Settled (Post.t * Db) :=
  let doc := Post.mk (next_oid db) userId text in
  Resolved (doc, mkDb (users db) (posts db ++ [doc]) (N.succ (next_oid db))).

Definition find (f : Post.t -> bool) (db : Db) : Settled (list Post.t) :=
  Resolved (filter f (posts db)).

(** [findOneAndUpdate(filter, { text }, { new: true })]. The filter and the
    update are cast first, and a failed cast rejects the call before any
    query; an update that the cast leaves empty writes nothing, and the call
    answers with the document the filter finds. *)
Definition findOneAndUpdate (query : Settled (Post.t -> bool))
    (text : JsValue) (db : Db) : Settled (option Post.t * Db) :=
  match query, cast_text text with
  | Resolved f, Resolved (Some v) =>
      let (r, ps) := update_first f (set_text v) (posts db) in
      Resolved (r, mkDb (users db) ps (next_oid db))
  | Resolved f, Resolved None => Resolved (List.find f (posts db), db)
  | _, _ => Rejected
  end.

Definition findOneAndDelete (query : Settled (Post.t -> bool)) (db : Db)
    : Settled (option Post.t * Db) :=
  match query with
  | Resolved f =>
      let (r, ps) := delete_first f (posts db) in
      Resolved (r, mkDb (users db) ps (next_oid db))
  | Rejected => Rejected
  end.
End PostModel.

(** ** Credentials *)

(** The claims of a token: what the handlers sign, and the [iat] and [exp]
    stamps (in seconds) that signing with [expiresIn] adds. *)
Record Payload : Type := mkPayload
  { userId : ObjectId; username : string; iat : Z; exp : Z }.

Record Token : Type := mkToken { claims : Payload; signed_with : string }.

Inductive JwtError : Type := JsonWebTokenError | TokenExpiredError.

Module jwt.
(** The number of seconds of the time span ["1h"]. *)
Definition one_hour : Z := 3600.

(** The clock of the library: whole seconds of [Date.now()], which is in
    milliseconds. *)
Definition seconds (now : Z) : Z := now / 1000.

(** [jwt.sign({userId, username}, key, {expiresIn: "1h"})] at time [now]. *)
Definition sign (uid : ObjectId) (uname : string) (key : string) (now : Z)
    : Token :=
  mkToken (mkPayload uid uname (seconds now) (seconds now + one_hour)) key.

(** [jwt.verify(token, key)] at time [now]; [inl] is the error it throws. *)
Definition verify (tok : Token) (key : string) (now : Z)
    : JwtError + Payload :=
  if negb (String.eqb (signed_with tok) key) then inl JsonWebTokenError
  else if exp (claims tok) <=? seconds now then inl TokenExpiredError
  else inr (claims tok).
End jwt.

(** ** Requests and responses *)

(** [req.body]. The model covers the forms of registration and login whose
    fields are strings, the type the [User] schema gives them; a body that
    carries another JSON value there (nothing, a number, an object of query
    operators) reaches [User.findOne] as it is, and is outside the model.
    [text] is whatever the body carries. *)
Record Body : Type := mkBody
  { b_username : string; b_email : string; b_password : string;
    b_text : JsValue }.

(** [session] is [req.session.token] and [user] is [req.user]. [postId] is
    what the ObjectId cast makes of [req.params.postId]: the identifier it
    denotes, or [None] when the cast fails. *)
Record Req : Type := mkReq
  { session : option Token; body : Body; postId : option ObjectId;
    user : option Payload }.

Definition set_user (req : Req) (decoded : Payload) : Req :=
  mkReq (session req) (body req) (postId req) (Some decoded).

Inductive ResBody : Type :=
| Message (message : string)
| MessageWith (message : string) (key : string) (doc : Post.t)
| PostList (posts : list Post.t).

Inductive Response : Type :=
| Json (status : nat) (payload : ResBody)
| Redirect (location : string)
| SendFile (file : string).

(** The status line of a response: [res.redirect] answers 302, and
    [res.json] and [res.sendFile] without [res.status] answer 200. *)
Definition status_of (r : Response) : nat :=
  match r with
  | Json st _ => st
  | Redirect _ => 302%nat
  | SendFile _ => 200%nat
  end.

(** What a request leaves behind: the response, the session's token slot and
    the store. *)
Record Outcome : Type := mkOutcome
  { response : Response; session_after : option Token; db_after : Db }.

Definition Handler : Type := Z -> Req -> Db -> Outcome.

(** Answer without touching the session or the store. *)
Definition reply (r : Response) (req : Req) (db : Db) : Outcome :=
  mkOutcome r (session req) db.

(** ** The application *)

Section App.

(** [process.env.SECRET_KEY] *)
Variable SECRET_KEY : string.

Definition internal_server_error : Response :=
  Json 500 (Message "Internal Server Error").

(** *** Guards

    [next()] hands the request to the route's handler; express does not
    let an exception of that handler travel back into the guard, so the
    guard's [try] covers [jwt.verify] alone. *)

Definition authenticateJWT (next : Handler) : Handler := fun now req db =>
  match session req with
  | None => reply (Json 401 (Message "Unauthorized")) req db
  | Some token =>
      match jwt.verify token SECRET_KEY now with
      | inr decoded => next now (set_user req decoded) db
      | inl _ => reply (Json 401 (Message "Invalid token")) req db
      end
  end.

Definition requireAuth (next : Handler) : Handler := fun now req db =>
  match session req with
  | None => reply (Redirect "/login") req db
  | Some token =>
      match jwt.verify token SECRET_KEY now with
      | inr decoded => next now (set_user req decoded) db
      | inl _ => reply (Redirect "/login") req db
      end
  end.

(** *** Pages *)

Definition page (file : string) : Handler := fun _ req db =>
  reply (SendFile file) req db.

(** The handler of [GET /index] reads [req.user.username]. *)
Definition index_page : Handler := fun _ req db =>
  match user req with
  | None => reply internal_server_error req db
  | Some _ => reply (SendFile "index.html") req db
  end.

(** *** Posts *)

Definition create_post : Handler := fun _ req db =>
  let text := b_text (body req) in
  if negb (truthy text) || negb (String.eqb (typeof text) "string") then
    reply (Json 400 (Message "Please provide valid post content")) req db
  else
    match user req with
    | None => reply internal_server_error req db
    | Some u =>
        match PostModel.create (userId u) text db with
        | Resolved (newPost, db') =>
            mkOutcome
              (Json 201 (MessageWith "Post created successfully" "post" newPost))
              (session req) db'
        | Rejected => reply internal_server_error req db
        end
    end.

Definition owned_by (uid : ObjectId) (p : Post.t) : bool :=
  N.eqb (Post.userId p) uid.

Definition is_post (pid uid : ObjectId) (p : Post.t) : bool :=
  N.eqb (Post._id p) pid && owned_by uid p.

Definition list_posts : Handler := fun _ req db =>
  match user req with
  | None => reply internal_server_error req db
  | Some u =>
      match PostModel.find (owned_by (userId u)) db with
      | Resolved posts => reply (Json 200 (PostList posts)) req db
      | Rejected => reply internal_server_error req db
      end
  end.

(** The filter [{ _id: postId, userId }]; it does not cast when [postId]
    does not. *)
Definition post_filter (postId : option ObjectId) (uid : ObjectId)
    : Settled (Post.t -> bool) :=
  match postId with
  | Some pid => Resolved (is_post pid uid)
  | None => Rejected
  end.

Definition update_post : Handler := fun _ req db =>
  let postId := postId req in
  let text := b_text (body req) in
  match user req with
  | None => reply internal_server_error req db
  | Some u =>
      match PostModel.findOneAndUpdate
              (post_filter postId (userId u)) text db with
      | Resolved (None, db') =>
          mkOutcome (Json 404 (Message "Post not found")) (session req) db'
      | Resolved (Some post, db') =>
          mkOutcome
            (Json 200 (MessageWith "Post updated successfully" "updatedPost" post))
            (session req) db'
      | Rejected => reply internal_server_error req db
      end
  end.

Definition delete_post : Handler := fun _ req db =>
  let postId := postId req in
  match user req with
  | None => reply internal_server_error req db
  | Some u =>
      match PostModel.findOneAndDelete (post_filter postId (userId u)) db
      with
      | Resolved (None, db') =>
          mkOutcome (Json 404 (Message "Post not found")) (session req) db'
      | Resolved (Some post, db') =>
          mkOutcome
            (Json 200 (MessageWith "Post deleted successfully" "deletedPost" post))
            (session req) db'
      | Rejected => reply internal_server_error req db
      end
  end.

(** *** Registration, login, logout *)

Definition same_name_or_email (username email : string) (u : User.t) : bool :=
  String.eqb (User.username u) username || String.eqb (User.email u) email.

Definition same_name_and_password (username password : string) (u : User.t)
    : bool :=
  String.eqb (User.username u) username
  && String.eqb (User.password u) password.

Definition index_of (username : string) : string :=
  String.append "/index?username=" username.

Definition register : Handler := fun now req db =>
  let username := b_username (body req) in
  let email := b_email (body req) in
  let password := b_password (body req) in
  match UserModel.findOne (same_name_or_email username email) db with
  | Resolved (Some existingUser) =>
      reply (Json 400 (Message "User already exists")) req db
  | Resolved None =>
      match UserModel.create username email password db with
      | Resolved (newUser, db') =>
          let token :=
            jwt.sign (User._id newUser) (User.username newUser)
              SECRET_KEY now in
          mkOutcome (Redirect (index_of (User.username newUser)))
            (Some token) db'
      | Rejected => reply internal_server_error req db
      end
  | Rejected => reply internal_server_error req db
  end.

(** The two awaited calls of [register], apart. The lookup answers the
    request by itself when it finds somebody ([Some]), and otherwise lets the
    handler go on to the save; between the two the server takes up other
    requests. *)
Definition register_lookup (req : Req) (db : Db) : option Outcome :=
  match
    UserModel.findOne
      (same_name_or_email (b_username (body req)) (b_email (body req))) db
  with
  | Resolved (Some existingUser) =>
      Some (reply (Json 400 (Message "User already exists")) req db)
  | Resolved None => None
  | Rejected => Some (reply internal_server_error req db)
  end.

Definition register_save : Handler := fun now req db =>
  match
    UserModel.create (b_username (body req)) (b_email (body req))
      (b_password (body req)) db
  with
  | Resolved (newUser, db') =>
      let token :=
        jwt.sign (User._id newUser) (User.username newUser) SECRET_KEY now in
      mkOutcome (Redirect (index_of (User.username newUser))) (Some token) db'
  | Rejected => reply internal_server_error req db
  end.

Definition login : Handler := fun now req db =>
  let username := b_username (body req) in
  let password := b_password (body req) in
  match UserModel.findOne (same_name_and_password username password) db with
  | Resolved None => reply (Json 401 (Message "Invalid credentials")) req db
  | Resolved (Some user) =>
      let token :=
        jwt.sign (User._id user) (User.username user) SECRET_KEY now in
      mkOutcome (Redirect (index_of (User.username user))) (Some token) db
  | Rejected => reply internal_server_error req db
  end.

(** What a field of the filter of [login] asks of a stored string, when the
    body is not held to strings: a string asks for that string, and the
    object [{"$ne": s}], a query operator, for any other one. *)
Inductive Condition : Type :=
| Is (s : string)
| IsNot (s : string).

Definition holds (c : Condition) (stored : string) : bool :=
  match c with
  | Is s => String.eqb stored s
  | IsNot s => negb (String.eqb stored s)
  end.

(** The handler of [POST /login] on such a body: the same lookup, the two
    fields of the filter being what the body carries. *)
Definition login_with (username password : Condition) : Handler :=
  fun now req db =>
    match
      UserModel.findOne
        (fun u => holds username (User.username u)
                  && holds password (User.password u)) db
    with
    | Resolved None => reply (Json 401 (Message "Invalid credentials")) req db
    | Resolved (Some user) =>
        let token :=
          jwt.sign (User._id user) (User.username user) SECRET_KEY now in
        mkOutcome (Redirect (index_of (User.username user))) (Some token) db
    | Rejected => reply internal_server_error req db
    end.

(** [req.session.destroy] drops the session, and with it the token. *)
Definition logout : Handler := fun _ req db =>
  mkOutcome (Redirect "/login") None db.

(** *** Routes *)

Definition GET_root : Handler := page "index.html".
Definition GET_register : Handler := page "register.html".
Definition GET_login : Handler := page "login.html".
Definition POST_post : Handler := authenticateJWT create_post.
Definition GET_posts : Handler := authenticateJWT list_posts.
Definition PUT_posts : Handler := authenticateJWT update_post.
Definition DELETE_posts : Handler := authenticateJWT delete_post.
Definition GET_index : Handler := requireAuth index_page.
Definition POST_register : Handler := register.
Definition POST_login : Handler := login.
Definition GET_logout : Handler := logout.

End App.

(** ** A small deployment

    Two registered users, one post of the first, and sessions signed for each
    of them at [t0] (milliseconds); the theorems are exercised on it. *)

Module Sample.
Definition key : string := "s3cret".
Definition t0 : Z := 1700000000000.

Definition alice : User.t := User.mk 0%N "alice" "a@x.com" "pw".
Definition bob : User.t := User.mk 1%N "bob" "b@x.com" "hunter2".
Definition hi : Post.t := Post.mk 2%N 0%N (JStr "hi").

Definition db : Db := mkDb [alice; bob] [hi] 3%N.

Definition alice_token : Token := jwt.sign 0%N "alice" key t0.
Definition bob_token : Token := jwt.sign 1%N "bob" key t0.
Definition forged_token : Token := jwt.sign 0%N "alice" "guess" t0.

Definition no_body : Body := mkBody "" "" "" JUndefined.
Definition with_text (v : JsValue) : Body := mkBody "" "" "" v.
Definition form (username email password : string) : Body :=
  mkBody username email password JUndefined.

(** A request in a session that holds [tok]. *)
Definition as_ (tok : Token) (b : Body) (pid : ObjectId) : Req :=
  mkReq (Some tok) b (Some pid) None.

(** A request in a fresh session. *)
Definition anonymous (b : Body) : Req := mkReq None b None None.
End Sample.


(** ** Well-formed stores

    The store keeps [_id] unique within a collection; the counter stays above
    every identifier it has handed out. *)

Record Db_wf (db : Db) : Prop := mkDb_wf
  { wf_post_ids : NoDup (map Post._id (posts db));
    wf_user_ids : NoDup (map User._id (users db));
    wf_post_bound : forall p, In p (posts db) -> (Post._id p < next_oid db)%N;
    wf_user_bound : forall u, In u (users db) -> (User._id u < next_oid db)%N }.

(** No two stored users share a username, or an email: what the lookup of
    [register] is there for. *)
Definition users_unique (db : Db) : Prop :=
  NoDup (map User.username (users db)) /\ NoDup (map User.email (users db)).

(** ** The server: the route table and the sessions

    [app.get], [app.post], [app.put] and [app.delete] bind eleven routes.
    The session middleware keeps one session per session id, which the
    client's cookie carries; the handlers read and write its [token], and
    [destroy] drops it. *)

Inductive Route : Type :=
| get_root | get_register | get_login
| post_post | get_posts | put_posts | delete_posts
| get_index | post_register | post_login | get_logout.

Definition handler_of (K : string) (r : Route) : Handler :=
  match r with
  | get_root => GET_root
  | get_register => GET_register
  | get_login => GET_login
  | post_post => POST_post K
  | get_posts => GET_posts K
  | put_posts => PUT_posts K
  | delete_posts => DELETE_posts K
  | get_index => GET_index K
  | post_register => POST_register K
  | post_login => POST_login K
  | get_logout => GET_logout
  end.

Definition Sessions : Type := nat -> option Token.

Record Server : Type := mkServer { store : Db; sessions : Sessions }.

(** An incoming request: the route it is for, the session id of its cookie,
    its body and the [:postId] of its path. *)
Record Request : Type := mkRequest
  { route : Route; cookie : nat; form : Body; target : option ObjectId }.

Definition fresh_server : Server := mkServer empty_db (fun _ => None).

(** One request against the server, served from its first store call to
    its response with no other request in between: the handler runs on the
    session of the cookie, and what it leaves in that session and in the
    store is kept. *)
Definition serve (K : string) (now : Z) (rq : Request) (sv : Server)
    : Response * Server :=
  let req := mkReq (sessions sv (cookie rq)) (form rq) (target rq) None in
  let o := handler_of K (route rq) now req (store sv) in
  (response o,
   mkServer (db_after o)
     (fun sid =>
        if Nat.eqb sid (cookie rq) then session_after o else sessions sv sid)).

(** A sequence of timed requests, served in order. *)
Fixpoint run (K : string) (trace : list (Z * Request)) (sv : Server)
    : list Response * Server :=
  match trace with
  | [] => ([], sv)
  | (now, rq) :: rest =>
      let (r, sv') := serve K now rq sv in
      let (rs, sv'') := run K rest sv' in
      (r :: rs, sv'')
  end.

(** A token is in order for a store when it was signed with the server's key
    for the [_id] and the username of a stored user. *)
Definition token_names_user (K : string) (db : Db) (tok : Token) : Prop :=
  signed_with tok = K
  /\ exists u, In u (users db)
              /\ userId (claims tok) = User._id u
              /\ username (claims tok) = User.username u.

(** What the server keeps from one request to the next. *)
Record Consistent (K : string) (sv : Server) : Prop := mkConsistent
  { c_wf : Db_wf (store sv);
    c_tokens : forall sid tok,
        sessions sv sid = Some tok -> token_names_user K (store sv) tok;
    c_owners : forall p,
        In p (posts (store sv)) ->
        exists u, In u (users (store sv)) /\ User._id u = Post.userId p }.

(** * Lemmas on the store *)


Section FirstMatch.

Variable f : Post.t -> bool.






End FirstMatch.

(** [find] answers [None] exactly when nothing in the list passes. *)
Lemma find_none_iff {A} (f : A -> bool) l :
  find f l = None <-> forall x, In x l -> f x = false.
Proof.
  split; [apply find_none|].
  induction l as [|a l IH]; intros Hall; simpl; [reflexivity|].
  rewrite (Hall a (or_introl eq_refl)). apply IH.
  intros x Hx. apply Hall. right. exact Hx.
Qed.

(** [find] skips a prefix in which nothing passes. *)
Lemma find_app_skip {A} (f : A -> bool) l1 l2 :
  (forall x, In x l1 -> f x = false) -> find f (l1 ++ l2) = find f l2.
Proof.
  induction l1 as [|a l1 IH]; intros Hall; simpl; [reflexivity|].
  rewrite (Hall a (or_introl eq_refl)). apply IH.
  intros x Hx. apply Hall. right. exact Hx.
Qed.





(** What a settled Update call did: it wrote nothing, or it rewrote the first
    match with the cast text; users and counter are as before. *)
Lemma update_call_cases query text db r db' :
  PostModel.findOneAndUpdate query text db = Resolved (r, db') ->
  exists f,
    query = Resolved f
    /\ ((cast_text text = Resolved None /\ db' = db
         /\ r = find f (posts db))
        \/ (exists v,
              cast_text text = Resolved (Some v)
              /\ update_first f (set_text v) (posts db) = (r, posts db')
              /\ users db' = users db /\ next_oid db' = next_oid db)).
Proof.
  unfold PostModel.findOneAndUpdate.
  destruct query as [f|]; [|destruct (cast_text text); discriminate].
  destruct (cast_text text) as [[v|]|]; [| |discriminate].
  - destruct (update_first f (set_text v) (posts db)) as [r0 ps] eqn:E.
    intros [= <- <-]. exists f. split; [reflexivity|]. right.
    exists v. simpl. repeat split; try reflexivity. exact E.
  - intros [= <- <-]. exists f. split; [reflexivity|]. left. repeat split.
Qed.

Lemma delete_call_cases query db r db' :
  PostModel.findOneAndDelete query db = Resolved (r, db') ->
  exists f,
    query = Resolved f
    /\ delete_first f (posts db) = (r, posts db')
    /\ users db' = users db /\ next_oid db' = next_oid db.
Proof.
  unfold PostModel.findOneAndDelete. destruct query as [f|]; [|discriminate].
  destruct (delete_first f (posts db)) as [r0 ps] eqn:E.
  intros [= <- <-]. exists f. simpl. repeat split; try reflexivity. exact E.
Qed.


Lemma is_post_true pid uid p :
  is_post pid uid p = true <-> Post._id p = pid /\ Post.userId p = uid.
Proof.
  unfold is_post, owned_by. rewrite andb_true_iff, !N.eqb_eq. reflexivity.
Qed.



(** * Lemmas on the guards *)

Section Guards.

Variable K : string.

Lemma authenticateJWT_pass next now req db tok decoded :
  session req = Some tok -> jwt.verify tok K now = inr decoded ->
  authenticateJWT K next now req db = next now (set_user req decoded) db.
Proof. intros Hs Hv. unfold authenticateJWT. rewrite Hs, Hv. reflexivity. Qed.

Lemma requireAuth_pass next now req db tok decoded :
  session req = Some tok -> jwt.verify tok K now = inr decoded ->
  requireAuth K next now req db = next now (set_user req decoded) db.
Proof. intros Hs Hv. unfold requireAuth. rewrite Hs, Hv. reflexivity. Qed.

(** What verification returns is the payload that was signed. *)
Lemma verify_inr tok now decoded :
  jwt.verify tok K now = inr decoded ->
  decoded = claims tok /\ signed_with tok = K
  /\ jwt.seconds now < exp (claims tok).
Proof.
  unfold jwt.verify.
  destruct (String.eqb (signed_with tok) K) eqn:Ek; simpl; [|discriminate].
  destruct (exp (claims tok) <=? jwt.seconds now) eqn:Ee; [discriminate|].
  intros [= <-]. apply String.eqb_eq in Ek. apply Z.leb_gt in Ee. auto.
Qed.

End Guards.

(** The post handlers behind the guard. *)
Lemma update_post_authed now req decoded db :
  update_post now (set_user req decoded) db
  = match
      PostModel.findOneAndUpdate (post_filter (postId req) (userId decoded))
        (b_text (body req)) db
    with
    | Resolved (None, db') =>
        mkOutcome (Json 404 (Message "Post not found")) (session req) db'
    | Resolved (Some post, db') =>
        mkOutcome
          (Json 200 (MessageWith "Post updated successfully" "updatedPost" post))
          (session req) db'
    | Rejected => mkOutcome internal_server_error (session req) db
    end.
Proof. reflexivity. Qed.

Lemma delete_post_authed now req decoded db :
  delete_post now (set_user req decoded) db
  = match
      PostModel.findOneAndDelete (post_filter (postId req) (userId decoded)) db
    with
    | Resolved (None, db') =>
        mkOutcome (Json 404 (Message "Post not found")) (session req) db'
    | Resolved (Some post, db') =>
        mkOutcome
          (Json 200 (MessageWith "Post deleted successfully" "deletedPost" post))
          (session req) db'
    | Rejected => mkOutcome internal_server_error (session req) db
    end.
Proof. reflexivity. Qed.

(** * The properties of the specification *)




(** The document a successful Create answers with, and the store it leaves. *)
Lemma create_post_created K now req db tok author created db' :
  session req = Some tok -> jwt.verify tok K now = inr author ->
  POST_post K now req db
    = mkOutcome (Json 201 (MessageWith "Post created successfully" "post" created))
        (session req) db' ->
  created = Post.mk (next_oid db) (userId author) (b_text (body req))
  /\ db' = mkDb (users db) (posts db ++ [created]) (N.succ (next_oid db)).
Proof.
  intros Hs Hv. unfold POST_post.
  rewrite (authenticateJWT_pass _ _ _ _ _ _ _ Hs Hv).
  unfold create_post. simpl.
  destruct (negb (truthy (b_text (body req)))
            || negb (String.eqb (typeof (b_text (body req))) "string"));
    simpl; unfold reply; intros [= <- <-]; split; reflexivity.
Qed.

(** C2. An authenticated List answers 200 with exactly the stored posts whose
    owner is the decoded [userId], and changes nothing; a post that a Create
    has just stored is in the answer when its author asks and is not when
    somebody else does. *)
Theorem list_posts_exact K now req db tok decoded :
  session req = Some tok -> jwt.verify tok K now = inr decoded ->
  exists listed,
    GET_posts K now req db
      = mkOutcome (Json 200 (PostList listed)) (session req) db
    /\ (forall p, In p listed <->
                  In p (posts db) /\ Post.userId p = userId decoded)
    /\ (forall now0 req0 db0 tok0 author created,
          session req0 = Some tok0 -> jwt.verify tok0 K now0 = inr author ->
          POST_post K now0 req0 db0
            = mkOutcome
                (Json 201 (MessageWith "Post created successfully" "post" created))
                (session req0) db ->
          (userId author = userId decoded -> In created listed)
          /\ (userId author <> userId decoded -> ~ In created listed)).
Proof.
  intros Hs Hv.
  exists (filter (owned_by (userId decoded)) (posts db)).
  assert (Hiff : forall p,
            In p (filter (owned_by (userId decoded)) (posts db)) <->
            In p (posts db) /\ Post.userId p = userId decoded).
  { intros p. rewrite filter_In. unfold owned_by. rewrite N.eqb_eq.
    reflexivity. }
  split; [|split; [exact Hiff|]].
  - unfold GET_posts. rewrite (authenticateJWT_pass _ _ _ _ _ _ _ Hs Hv).
    reflexivity.
  - intros now0 req0 db0 tok0 author created Hs0 Hv0 Hc.
    destruct (create_post_created _ _ _ _ _ _ _ _ Hs0 Hv0 Hc) as [Hcr Hdb].
    assert (Hown : Post.userId created = userId author)
      by (rewrite Hcr; reflexivity).
    assert (Hin : In created (posts db)).
    { rewrite Hdb. simpl. apply in_or_app. right. left. reflexivity. }
    split.
    + intros Hsame. apply Hiff. split; [exact Hin | congruence].
    + intros Hdiff Hl. apply Hiff in Hl. destruct Hl as [_ Hl]. congruence.
Qed.

(** Alice lists her posts; Bob's list of the same store is empty. *)
Lemma list_posts_exact_witness :
  (exists listed,
     GET_posts Sample.key Sample.t0
       (Sample.as_ Sample.alice_token Sample.no_body 0%N) Sample.db
       = mkOutcome (Json 200 (PostList listed)) (Some Sample.alice_token)
           Sample.db
     /\ In Sample.hi listed)
  /\ GET_posts Sample.key Sample.t0
       (Sample.as_ Sample.bob_token Sample.no_body 0%N) Sample.db
     = mkOutcome (Json 200 (PostList [])) (Some Sample.bob_token) Sample.db.
Proof.
  split; [|reflexivity].
  destruct (list_posts_exact Sample.key Sample.t0
              (Sample.as_ Sample.alice_token Sample.no_body 0%N) Sample.db
              Sample.alice_token (claims Sample.alice_token)
              eq_refl eq_refl) as (listed & Hget & Hiff & _).
  exists listed. split; [exact Hget|].
  apply Hiff. split; [left; reflexivity | reflexivity].
Defined.

(** C3. When the session holds no token, or one that [jwt.verify] rejects,
    [authenticateJWT] answers 401 with a JSON message whatever the handler
    behind it is, so that handler does not run and session and store stay
    as they were; this is so on each of the four post routes.  [requireAuth],
    and so [GET /index], answers with a redirect to [/login]. *)
Theorem guards_reject K now req db :
  (session req = None
   \/ exists tok e, session req = Some tok /\ jwt.verify tok K now = inl e) ->
  (exists message,
     (message = "Unauthorized" \/ message = "Invalid token")
     /\ forall next,
          authenticateJWT K next now req db
            = mkOutcome (Json 401 (Message message)) (session req) db)
  /\ (forall route,
        In route [POST_post K; GET_posts K; PUT_posts K; DELETE_posts K] ->
        status_of (response (route now req db)) = 401%nat
        /\ session_after (route now req db) = session req
        /\ db_after (route now req db) = db)
  /\ (forall next,
        requireAuth K next now req db
          = mkOutcome (Redirect "/login") (session req) db)
  /\ GET_index K now req db = mkOutcome (Redirect "/login") (session req) db.
Proof.
  intros Hbad.
  assert (Hstrict : exists message,
            (message = "Unauthorized" \/ message = "Invalid token")
            /\ forall next,
                 authenticateJWT K next now req db
                   = mkOutcome (Json 401 (Message message)) (session req) db).
  { destruct Hbad as [Hnone | (tok & e & Hs & Hv)].
    - exists "Unauthorized". split; [left; reflexivity|].
      intros next. unfold authenticateJWT, reply. rewrite Hnone. reflexivity.
    - exists "Invalid token". split; [right; reflexivity|].
      intros next. unfold authenticateJWT, reply. rewrite Hs, Hv.
      reflexivity. }
  assert (Hpage : forall next,
            requireAuth K next now req db
              = mkOutcome (Redirect "/login") (session req) db).
  { intros next. unfold requireAuth, reply.
    destruct Hbad as [Hnone | (tok & e & Hs & Hv)].
    - rewrite Hnone. reflexivity.
    - rewrite Hs, Hv. reflexivity. }
  split; [exact Hstrict|]. split; [|split; [exact Hpage | apply Hpage]].
  destruct Hstrict as (message & _ & Hall).
  intros route Hroute. simpl in Hroute.
  destruct Hroute as [<-|[<-|[<-|[<-|[]]]]];
    unfold POST_post, GET_posts, PUT_posts, DELETE_posts;
    rewrite Hall; repeat split.
Qed.

(** A fresh session, and a session whose token was signed with another key. *)
Lemma guards_reject_witness :
  status_of
    (response
       (POST_post Sample.key Sample.t0 (Sample.anonymous Sample.no_body)
          Sample.db)) = 401%nat
  /\ GET_index Sample.key Sample.t0
       (Sample.as_ Sample.forged_token Sample.no_body 0%N) Sample.db
     = mkOutcome (Redirect "/login") (Some Sample.forged_token) Sample.db.
Proof.
  split.
  - destruct (guards_reject Sample.key Sample.t0
                (Sample.anonymous Sample.no_body) Sample.db
                (or_introl eq_refl)) as (_ & Hroutes & _).
    apply (Hroutes (POST_post Sample.key)). left. reflexivity.
  - apply (guards_reject Sample.key Sample.t0
             (Sample.as_ Sample.forged_token Sample.no_body 0%N) Sample.db).
    right. exists Sample.forged_token, JsonWebTokenError.
    split; reflexivity.
Defined.

(** * Registration and login *)

Lemma same_name_or_email_true un em u :
  same_name_or_email un em u = true <->
  User.username u = un \/ User.email u = em.
Proof.
  unfold same_name_or_email. rewrite orb_true_iff, !String.eqb_eq.
  reflexivity.
Qed.

Lemma same_name_and_password_true un pw u :
  same_name_and_password un pw u = true <->
  User.username u = un /\ User.password u = pw.
Proof.
  unfold same_name_and_password. rewrite andb_true_iff, !String.eqb_eq.
  reflexivity.
Qed.

(** Register when a stored user has the username or the email. *)
Lemma register_taken K now req db u :
  In u (users db) ->
  User.username u = b_username (body req)
  \/ User.email u = b_email (body req) ->
  POST_register K now req db
  = mkOutcome (Json 400 (Message "User already exists")) (session req) db.
Proof.
  intros Hin Hsame. unfold POST_register, register, UserModel.findOne.
  destruct (find _ (users db)) as [v|] eqn:Ef; [reflexivity|].
  apply find_none with (x := u) in Ef; [|exact Hin].
  apply same_name_or_email_true in Hsame. congruence.
Qed.

(** Register when no stored user has the username or the email. *)
Lemma register_free K now req db :
  (forall u, In u (users db) ->
             User.username u <> b_username (body req)
             /\ User.email u <> b_email (body req)) ->
  POST_register K now req db
  = mkOutcome (Redirect (index_of (b_username (body req))))
      (Some (jwt.sign (next_oid db) (b_username (body req)) K now))
      (mkDb
         (users db
          ++ [User.mk (next_oid db) (b_username (body req))
                (b_email (body req)) (b_password (body req))])
         (posts db) (N.succ (next_oid db))).
Proof.
  intros Hfree. unfold POST_register, register, UserModel.findOne.
  replace (find _ (users db)) with (@None User.t); [reflexivity|].
  symmetry. apply find_none_iff. intros x Hx.
  destruct (same_name_or_email _ _ x) eqn:E; [|reflexivity].
  apply same_name_or_email_true in E.
  destruct (Hfree x Hx) as [Hn He]. destruct E; contradiction.
Qed.

(** C4. Register answers 400 "User already exists" as soon as a stored user
    has the same username or the same email, and then leaves the store and
    the session's token as they were; when no stored user has either, it
    appends the record with the three fields as given, signs a token for it
    and puts the token in the session. *)
Theorem register_conflict_or_store K now req db :
  let un := b_username (body req) in
  let em := b_email (body req) in
  let pw := b_password (body req) in
  ((exists u, In u (users db) /\ (User.username u = un \/ User.email u = em)) ->
   POST_register K now req db
     = mkOutcome (Json 400 (Message "User already exists")) (session req) db)
  /\ ((forall u, In u (users db) ->
                 User.username u <> un /\ User.email u <> em) ->
      POST_register K now req db
        = mkOutcome (Redirect (index_of un))
            (Some (jwt.sign (next_oid db) un K now))
            (mkDb (users db ++ [User.mk (next_oid db) un em pw]) (posts db)
               (N.succ (next_oid db)))).
Proof.
  intros un em pw. split.
  - intros (u & Hin & Hsame). exact (register_taken K now req db u Hin Hsame).
  - intros Hfree. exact (register_free K now req db Hfree).
Qed.

(** A second "alice" with another email is turned away; "carol" is stored. *)
Lemma register_conflict_or_store_witness :
  POST_register Sample.key Sample.t0
    (Sample.anonymous (Sample.form "alice" "other@x.com" "pw2")) Sample.db
    = mkOutcome (Json 400 (Message "User already exists")) None Sample.db
  /\ POST_register Sample.key Sample.t0
       (Sample.anonymous (Sample.form "carol" "c@x.com" "pw3")) Sample.db
     = mkOutcome (Redirect "/index?username=carol")
         (Some (jwt.sign 3%N "carol" Sample.key Sample.t0))
         (mkDb [Sample.alice; Sample.bob; User.mk 3%N "carol" "c@x.com" "pw3"]
            [Sample.hi] 4%N).
Proof.
  split.
  - apply (register_conflict_or_store Sample.key Sample.t0
             (Sample.anonymous (Sample.form "alice" "other@x.com" "pw2"))
             Sample.db).
    exists Sample.alice. split; [left; reflexivity | left; reflexivity].
  - apply (register_conflict_or_store Sample.key Sample.t0
             (Sample.anonymous (Sample.form "carol" "c@x.com" "pw3"))
             Sample.db).
    intros u [<-|[<-|[]]]; split; discriminate.
Defined.

(** Login on a form whose username and password are strings: it answers
    with the redirect, and puts a newly signed token in the session, exactly
    when some stored user has both the username and the password of the
    form; when none has, it answers 401 "Invalid credentials" and leaves the
    session's token and the store as they were.  (A body that carries an
    object of query operators in place of a string is handed to
    [User.findOne] as it is; it is not a form of this kind.) *)
Lemma login_on_string_form K now req db :
  let un := b_username (body req) in
  let pw := b_password (body req) in
  let o := POST_login K now req db in
  let matches u :=
    In u (users db) /\ User.username u = un /\ User.password u = pw in
  ((exists u, matches u) <-> status_of (response o) = 302%nat)
  /\ ((exists u, matches u) <->
      exists u, matches u
        /\ o = mkOutcome (Redirect (index_of (User.username u)))
                 (Some (jwt.sign (User._id u) (User.username u) K now)) db)
  /\ (~ (exists u, matches u) ->
      o = mkOutcome (Json 401 (Message "Invalid credentials")) (session req) db).
Proof.
  intros un pw o matches. subst o.
  unfold POST_login, login, UserModel.findOne. fold un pw.
  destruct (find (same_name_and_password un pw) (users db)) as [v|] eqn:Ef.
  - apply find_some in Ef. destruct Ef as [Hin Hm].
    apply same_name_and_password_true in Hm.
    assert (Hv : matches v) by (split; assumption).
    split; [|split].
    + split; [reflexivity | intros _; exists v; exact Hv].
    + split; [intros _; exists v; split; [exact Hv | reflexivity]|].
      intros (u & Hu & _). exists u. exact Hu.
    + intros Hno. exfalso. apply Hno. exists v. exact Hv.
  - assert (Hno : ~ exists u, matches u).
    { intros (u & Hin & Hn & Hp).
      apply find_none with (x := u) in Ef; [|exact Hin].
      assert (same_name_and_password un pw u = true)
        by (apply same_name_and_password_true; split; assumption).
      congruence. }
    split; [|split].
    + split; [intros H; contradiction | simpl; discriminate].
    + split; [intros H; contradiction|].
      intros (u & Hu & _). exfalso. apply Hno. exists u. exact Hu.
    + intros _. reflexivity.
Qed.

(** On a form of strings, [login_with] is [login]. *)
Lemma login_with_strings K now req db :
  login_with K (Is (b_username (body req))) (Is (b_password (body req)))
    now req db
  = login K now req db.
Proof. reflexivity. Qed.

(** C5, where the code leaves it. The body
    [{"username": "alice", "password": {"$ne": "x"}}] logs in as Alice: the
    answer is the redirect, with a token for her in the session, although no
    stored user has anything of that body as password; her password, "pw",
    is not asked for. *)
Theorem login_operator_bypass :
  let o :=
    login_with Sample.key (Is "alice") (IsNot "x") Sample.t0
      (Sample.anonymous Sample.no_body) Sample.db in
  o = mkOutcome (Redirect "/index?username=alice") (Some Sample.alice_token)
        Sample.db
  /\ status_of (response o) <> 401%nat
  /\ User.password Sample.alice = "pw"
  /\ forall u, In u (users Sample.db) -> User.password u <> "x".
Proof.
  intros o. split; [reflexivity|]. split; [discriminate|].
  split; [reflexivity|].
  intros u [<-|[<-|[]]]; discriminate.
Qed.

(** A token verifies at the instant it is signed. *)
Lemma verify_sign uid un K now :
  jwt.verify (jwt.sign uid un K now) K now
  = inr (claims (jwt.sign uid un K now)).
Proof.
  unfold jwt.verify, jwt.sign. simpl. rewrite String.eqb_refl. simpl.
  replace (jwt.seconds now + jwt.one_hour <=? jwt.seconds now) with false;
    [reflexivity|].
  symmetry. apply Z.leb_gt. unfold jwt.one_hour. lia.
Qed.

(** C7. When no stored user has the username or the email of a Register
    request, the request is answered with the redirect and a token, and a
    Login with the same username and password on the store it leaves is
    answered with the redirect too, with a token for the user just stored. *)
Theorem register_then_login K now1 now2 req1 req2 db :
  let un := b_username (body req1) in
  let em := b_email (body req1) in
  let pw := b_password (body req1) in
  (forall u, In u (users db) -> User.username u <> un /\ User.email u <> em) ->
  b_username (body req2) = un -> b_password (body req2) = pw ->
  let o1 := POST_register K now1 req1 db in
  let o2 := POST_login K now2 req2 (db_after o1) in
  response o1 = Redirect (index_of un)
  /\ session_after o1 = Some (jwt.sign (next_oid db) un K now1)
  /\ In (User.mk (next_oid db) un em pw) (users (db_after o1))
  /\ response o2 = Redirect (index_of un)
  /\ session_after o2 = Some (jwt.sign (next_oid db) un K now2)
  /\ db_after o2 = db_after o1.
Proof.
  intros un em pw Hfree Hun Hpw o1 o2.
  pose proof (register_free K now1 req1 db Hfree) as Hreg.
  fold un em pw in Hreg.
  subst o2 o1. rewrite Hreg. simpl.
  split; [reflexivity|]. split; [reflexivity|].
  split; [apply in_or_app; right; left; reflexivity|].
  unfold POST_login, login, UserModel.findOne. simpl.
  rewrite Hun, Hpw.
  rewrite find_app_skip.
  - assert (Hm : same_name_and_password un pw
                   (User.mk (next_oid db) un em pw) = true)
      by (apply same_name_and_password_true; split; reflexivity).
    cbn [find]. rewrite Hm. repeat split.
  - intros x Hx.
    destruct (same_name_and_password un pw x) eqn:E; [|reflexivity].
    apply same_name_and_password_true in E.
    destruct (Hfree x Hx) as [Hn _]. destruct E. contradiction.
Qed.

(** The scenario of the specification: "alice" registers with an empty store
    and logs in a minute later. *)
Lemma register_then_login_witness :
  let form := Sample.form "alice" "a@x.com" "pw" in
  let o1 := POST_register Sample.key Sample.t0 (Sample.anonymous form)
              empty_db in
  let o2 := POST_login Sample.key (Sample.t0 + 60000) (Sample.anonymous form)
              (db_after o1) in
  response o1 = Redirect "/index?username=alice"
  /\ response o2 = Redirect "/index?username=alice".
Proof.
  intros form o1 o2.
  destruct (register_then_login Sample.key Sample.t0 (Sample.t0 + 60000)
              (Sample.anonymous form) (Sample.anonymous form) empty_db)
    as (H1 & _ & _ & H2 & _).
  - intros u [].
  - reflexivity.
  - reflexivity.
  - split; [exact H1 | exact H2].
Defined.

(** * Posts *)

(** The test of [create_post] passes non-empty strings and nothing else. *)
Lemma valid_text_iff v :
  negb (truthy v) || negb (String.eqb (typeof v) "string") = false <->
  exists s, v = JStr s /\ s <> "".
Proof.
  split.
  - destruct v as [| |b|n|s|items|fields]; simpl;
      rewrite ?orb_true_r; try discriminate.
    rewrite orb_false_r, negb_involutive. intros Hs.
    exists s. split; [reflexivity|].
    intros ->. discriminate.
  - intros (s & -> & Hs). simpl.
    rewrite orb_false_r, negb_involutive.
    apply String.eqb_neq. exact Hs.
Qed.

(** C6, as the code has it. An authenticated Create answers 400 "Please
    provide valid post content" and inserts nothing when the text is absent,
    is not a string or is the empty string; for a non-empty string it appends
    a post owned by the decoded [userId] with that text and answers 201 with
    the stored record. *)
Theorem create_post_validates K now req db tok decoded :
  session req = Some tok -> jwt.verify tok K now = inr decoded ->
  let text := b_text (body req) in
  ((forall s, text = JStr s -> s = "") ->
   POST_post K now req db
     = mkOutcome (Json 400 (Message "Please provide valid post content"))
         (session req) db)
  /\ (forall s, text = JStr s -> s <> "" ->
      let created := Post.mk (next_oid db) (userId decoded) (JStr s) in
      POST_post K now req db
        = mkOutcome
            (Json 201 (MessageWith "Post created successfully" "post" created))
            (session req)
            (mkDb (users db) (posts db ++ [created]) (N.succ (next_oid db)))).
Proof.
  intros Hs Hv text. unfold POST_post.
  rewrite (authenticateJWT_pass _ _ _ _ _ _ _ Hs Hv).
  unfold create_post. simpl. fold text.
  destruct (negb (truthy text) || negb (String.eqb (typeof text) "string"))
    eqn:Etest.
  - split; [reflexivity|].
    intros s Htext Hne. exfalso.
    assert (Hok : negb (truthy text)
                  || negb (String.eqb (typeof text) "string") = false)
      by (apply valid_text_iff; exists s; split; assumption).
    congruence.
  - apply valid_text_iff in Etest. destruct Etest as (s & Htext & Hne).
    split.
    + intros Hempty. exfalso. exact (Hne (Hempty s Htext)).
    + intros s' Htext' _. rewrite Htext in Htext'.
      injection Htext' as <-. rewrite Htext. reflexivity.
Qed.

(** Alice posts "hi"; a numeric text is refused. *)
Lemma create_post_validates_witness :
  POST_post Sample.key Sample.t0
    (Sample.as_ Sample.alice_token (Sample.with_text (JStr "hi")) 0%N)
    (mkDb [Sample.alice] [] 1%N)
  = mkOutcome
      (Json 201
         (MessageWith "Post created successfully" "post"
            (Post.mk 1%N 0%N (JStr "hi"))))
      (Some Sample.alice_token)
      (mkDb [Sample.alice] [Post.mk 1%N 0%N (JStr "hi")] 2%N)
  /\ POST_post Sample.key Sample.t0
       (Sample.as_ Sample.alice_token (Sample.with_text (JNum 7)) 0%N)
       Sample.db
     = mkOutcome (Json 400 (Message "Please provide valid post content"))
         (Some Sample.alice_token) Sample.db.
Proof.
  split.
  - destruct (create_post_validates Sample.key Sample.t0
                (Sample.as_ Sample.alice_token (Sample.with_text (JStr "hi"))
                   0%N)
                (mkDb [Sample.alice] [] 1%N) Sample.alice_token
                (claims Sample.alice_token) eq_refl eq_refl) as [_ Hok].
    apply (Hok "hi" eq_refl). discriminate.
  - apply (create_post_validates Sample.key Sample.t0
             (Sample.as_ Sample.alice_token (Sample.with_text (JNum 7)) 0%N)
             Sample.db Sample.alice_token (claims Sample.alice_token)
             eq_refl eq_refl).
    intros s. discriminate.
Defined.

(** The empty string is present and is a string, and Create still answers 400
    and stores nothing. *)
Lemma create_empty_string_refused :
  let req :=
    Sample.as_ Sample.alice_token (Sample.with_text (JStr "")) 0%N in
  let o := POST_post Sample.key Sample.t0 req Sample.db in
  b_text (body req) <> JUndefined
  /\ typeof (b_text (body req)) = "string"
  /\ status_of (response o) = 400%nat
  /\ status_of (response o) <> 201%nat
  /\ db_after o = Sample.db.
Proof.
  intros req o. repeat split; try reflexivity; discriminate.
Qed.

(** C10. An authenticated Create whose text is the empty string answers 400
    "Please provide valid post content" and leaves the store as it was. *)
Theorem create_rejects_empty_string K now req db tok decoded :
  session req = Some tok -> jwt.verify tok K now = inr decoded ->
  b_text (body req) = JStr "" ->
  typeof (b_text (body req)) = "string"
  /\ POST_post K now req db
     = mkOutcome (Json 400 (Message "Please provide valid post content"))
         (session req) db.
Proof.
  intros Hs Hv Htext. split; [rewrite Htext; reflexivity|].
  unfold POST_post. rewrite (authenticateJWT_pass _ _ _ _ _ _ _ Hs Hv).
  unfold create_post. simpl. rewrite Htext. reflexivity.
Qed.

Lemma create_rejects_empty_string_witness :
  POST_post Sample.key Sample.t0
    (Sample.as_ Sample.bob_token (Sample.with_text (JStr "")) 0%N) Sample.db
  = mkOutcome (Json 400 (Message "Please provide valid post content"))
      (Some Sample.bob_token) Sample.db.
Proof.
  apply (create_rejects_empty_string Sample.key Sample.t0
           (Sample.as_ Sample.bob_token (Sample.with_text (JStr "")) 0%N)
           Sample.db Sample.bob_token (claims Sample.bob_token)
           eq_refl eq_refl eq_refl).
Defined.





(** * The lifetime of a credential *)

(** A token is rejected from the first instant at which it is an hour old,
    to the millisecond. *)
Lemma expired_after_one_hour uid un K t now :
  t + 3600 * 1000 <= now ->
  jwt.verify (jwt.sign uid un K t) K now = inl TokenExpiredError.
Proof.
  intros Hold. unfold jwt.verify, jwt.sign. simpl.
  rewrite String.eqb_refl. simpl.
  replace (jwt.seconds t + jwt.one_hour <=? jwt.seconds now) with true;
    [reflexivity|].
  symmetry. apply Z.leb_le. unfold jwt.seconds, jwt.one_hour.
  assert (Hdiv : (t + 3600 * 1000) / 1000 <= now / 1000)
    by (apply Z.div_le_mono; lia).
  rewrite Z.div_add in Hdiv by lia. exact Hdiv.
Qed.

(** The handlers behind the guards leave the session's token alone. *)
Lemma guarded_handlers_keep_session h now req db :
  In h [create_post; list_posts; update_post; delete_post; index_page] ->
  session_after (h now req db) = session req.
Proof.
  simpl. intros [<-|[<-|[<-|[<-|[<-|[]]]]]].
  - unfold create_post.
    destruct (negb (truthy (b_text (body req)))
              || negb (String.eqb (typeof (b_text (body req))) "string"));
      [reflexivity|].
    destruct (user req); reflexivity.
  - unfold list_posts. destruct (user req); reflexivity.
  - unfold update_post.
    destruct (user req) as [u|]; [|reflexivity].
    destruct (PostModel.findOneAndUpdate _ _ db) as [[[q|] db']|];
      reflexivity.
  - unfold delete_post.
    destruct (user req) as [u|]; [|reflexivity].
    destruct (PostModel.findOneAndDelete _ db) as [[[q|] db']|]; reflexivity.
  - unfold index_page. destruct (user req); reflexivity.
Qed.

(** C8. A Login or Register that answers with the redirect leaves in the
    session a token signed at the time of the request, whose [exp] is its
    [iat] plus 3600 seconds, [iat] being the second of that time; no guarded
    route writes the session's token, so the token is never replaced by a
    later one; and a guarded request made more than an hour (3 600 000 ms)
    after the token was signed is answered 401 by [authenticateJWT] and with
    the redirect to [/login] by [requireAuth], whatever the handler. *)
Theorem credential_lasts_one_hour K :
  (forall now req db location,
     response (POST_login K now req db) = Redirect location ->
     exists uid un,
       session_after (POST_login K now req db) = Some (jwt.sign uid un K now))
  /\ (forall now req db location,
        response (POST_register K now req db) = Redirect location ->
        exists uid un,
          session_after (POST_register K now req db)
          = Some (jwt.sign uid un K now))
  /\ (forall uid un t,
        iat (claims (jwt.sign uid un K t)) = t / 1000
        /\ exp (claims (jwt.sign uid un K t))
           = iat (claims (jwt.sign uid un K t)) + 3600)
  /\ (forall route now req db,
        In route [POST_post K; GET_posts K; PUT_posts K; DELETE_posts K;
                  GET_index K] ->
        session_after (route now req db) = session req)
  /\ (forall uid un t now req db,
        session req = Some (jwt.sign uid un K t) ->
        3600 * 1000 < now - t ->
        (forall next,
           authenticateJWT K next now req db
             = mkOutcome (Json 401 (Message "Invalid token")) (session req) db)
        /\ (forall next,
              requireAuth K next now req db
                = mkOutcome (Redirect "/login") (session req) db)).
Proof.
  split; [|split; [|split; [|split]]].
  - intros now req db location.
    unfold POST_login, login, UserModel.findOne.
    destruct (find _ (users db)) as [u|]; simpl; [|discriminate].
    intros _. exists (User._id u), (User.username u). reflexivity.
  - intros now req db location.
    unfold POST_register, register, UserModel.findOne.
    destruct (find _ (users db)) as [u|]; simpl; [discriminate|].
    intros _. exists (next_oid db), (b_username (body req)). reflexivity.
  - intros uid un t. split; reflexivity.
  - intros route now req db Hroute.
    assert (Hguard : forall h,
              In h [create_post; list_posts; update_post; delete_post;
                    index_page] ->
              session_after (authenticateJWT K h now req db) = session req
              /\ session_after (requireAuth K h now req db) = session req).
    { intros h Hh. unfold authenticateJWT, requireAuth, reply.
      destruct (session req) as [tok|] eqn:Hs; [|split; reflexivity].
      destruct (jwt.verify tok K now) as [e|decoded]; [split; reflexivity|].
      rewrite (guarded_handlers_keep_session h now _ db Hh).
      simpl. split; exact Hs. }
    simpl in Hroute. destruct Hroute as [<-|[<-|[<-|[<-|[<-|[]]]]]];
      unfold POST_post, GET_posts, PUT_posts, DELETE_posts, GET_index;
      apply Hguard; simpl; tauto.
  - intros uid un t now req db Hs Hold.
    assert (Hv : jwt.verify (jwt.sign uid un K t) K now
                 = inl TokenExpiredError)
      by (apply expired_after_one_hour; lia).
    split; intros next; unfold authenticateJWT, requireAuth, reply;
      rewrite Hs, Hv; reflexivity.
Qed.

(** Alice's token, signed at [t0], presented one millisecond past the hour. *)
Lemma credential_lasts_one_hour_witness :
  let late := Sample.t0 + 3600 * 1000 + 1 in
  let req := Sample.as_ Sample.alice_token Sample.no_body 0%N in
  GET_posts Sample.key late req Sample.db
    = mkOutcome (Json 401 (Message "Invalid token")) (session req) Sample.db
  /\ GET_index Sample.key late req Sample.db
     = mkOutcome (Redirect "/login") (session req) Sample.db.
Proof.
  intros late req.
  destruct (credential_lasts_one_hour Sample.key) as (_ & _ & _ & _ & Hexp).
  destruct (Hexp 0%N "alice" Sample.t0 late req Sample.db eq_refl)
    as [Hstrict Hpage].
  - unfold late. lia.
  - split; [apply Hstrict | apply Hpage].
Defined.

(** * Well-formed stores stay well-formed

    The uniqueness of [_id] that the theorems on Update and Delete assume
    holds of the empty store and is kept by every route. *)

Lemma update_first_ids f upd l :
  (forall d, Post._id (upd d) = Post._id d) ->
  map Post._id (snd (update_first f upd l)) = map Post._id l.
Proof.
  intros Hupd. induction l as [|d ds IH]; simpl; [reflexivity|].
  destruct (f d).
  - simpl. rewrite Hupd. reflexivity.
  - destruct (update_first f upd ds) as [r ds']. simpl in *.
    rewrite IH. reflexivity.
Qed.

Lemma delete_first_incl f l p :
  In p (snd (delete_first f l)) -> In p l.
Proof.
  induction l as [|d ds IH]; simpl; [tauto|].
  destruct (f d); simpl.
  - intros Hp. right. exact Hp.
  - destruct (delete_first f ds) as [r ds']. simpl in *.
    intros [->|Hp]; [left; reflexivity | right; exact (IH Hp)].
Qed.

Lemma delete_first_nodup f l :
  NoDup (map Post._id l) -> NoDup (map Post._id (snd (delete_first f l))).
Proof.
  induction l as [|d ds IH]; simpl; intros Hnd; [exact Hnd|].
  inversion Hnd as [|x xs Hnotin Hnd']; subst.
  destruct (f d); simpl; [exact Hnd'|].
  pose proof (delete_first_incl f ds) as Hincl.
  destruct (delete_first f ds) as [r ds']. simpl in *.
  constructor; [|exact (IH Hnd')].
  intros Hin. apply in_map_iff in Hin. destruct Hin as (q & Hq & Hqin).
  apply Hnotin. rewrite <- Hq. apply in_map. exact (Hincl q Hqin).
Qed.

(** A fresh identifier extends a duplicate-free list of smaller ones. *)
Lemma nodup_snoc_fresh (ids : list N) (n : N) :
  NoDup ids -> (forall i, In i ids -> (i < n)%N) -> NoDup (ids ++ [n]).
Proof.
  intros Hnd Hlt. induction ids as [|i ids IH]; simpl.
  - constructor; [intros [] | constructor].
  - inversion Hnd as [|x xs Hnotin Hnd']; subst. constructor.
    + intros Hin. apply in_app_or in Hin. destruct Hin as [Hin|[<-|[]]].
      * exact (Hnotin Hin).
      * specialize (Hlt n (or_introl eq_refl)). lia.
    + apply IH; [exact Hnd'|]. intros j Hj. apply Hlt. right. exact Hj.
Qed.

Lemma empty_db_wf : Db_wf empty_db.
Proof. constructor; simpl; try constructor; intros ? []. Qed.

Lemma create_post_wf uid text db d db' :
  Db_wf db -> PostModel.create uid text db = Resolved (d, db') -> Db_wf db'.
Proof.
  intros [Hp Hu Hpb Hub]. unfold PostModel.create. intros [= <- <-].
  constructor; simpl.
  - rewrite map_app. simpl. apply nodup_snoc_fresh; [exact Hp|].
    intros i Hi. apply in_map_iff in Hi. destruct Hi as (q & <- & Hq).
    exact (Hpb q Hq).
  - exact Hu.
  - intros q Hq. apply in_app_or in Hq. destruct Hq as [Hq|[<-|[]]].
    + specialize (Hpb q Hq). lia.
    + simpl. lia.
  - intros u Hin. specialize (Hub u Hin). lia.
Qed.

Lemma create_user_wf un em pw db d db' :
  Db_wf db -> UserModel.create un em pw db = Resolved (d, db') -> Db_wf db'.
Proof.
  intros [Hp Hu Hpb Hub]. unfold UserModel.create. intros [= <- <-].
  constructor; simpl.
  - exact Hp.
  - rewrite map_app. simpl. apply nodup_snoc_fresh; [exact Hu|].
    intros i Hi. apply in_map_iff in Hi. destruct Hi as (q & <- & Hq).
    exact (Hub q Hq).
  - intros q Hq. specialize (Hpb q Hq). lia.
  - intros u Hin. apply in_app_or in Hin. destruct Hin as [Hin|[<-|[]]].
    + specialize (Hub u Hin). lia.
    + simpl. lia.
Qed.

Lemma update_wf query text db r db' :
  Db_wf db ->
  PostModel.findOneAndUpdate query text db = Resolved (r, db') ->
  Db_wf db'.
Proof.
  intros Hwf Hcall.
  destruct (update_call_cases _ _ _ _ _ Hcall)
    as (f & _ & [(_ & -> & _)|(v & _ & Hup & Husers & Hnext)]);
    [exact Hwf|].
  destruct Hwf as [Hp Hu Hpb Hub].
  pose proof (update_first_ids f (set_text v) (posts db)
                (fun d => eq_refl)) as Hids.
  rewrite Hup in Hids. simpl in Hids.
  constructor.
  - rewrite Hids. exact Hp.
  - rewrite Husers. exact Hu.
  - rewrite Hnext. intros q Hq. apply (in_map Post._id) in Hq.
    rewrite Hids in Hq. apply in_map_iff in Hq.
    destruct Hq as (d & Hd & Hdin). rewrite <- Hd. exact (Hpb d Hdin).
  - rewrite Husers, Hnext. exact Hub.
Qed.

Lemma delete_wf query db r db' :
  Db_wf db ->
  PostModel.findOneAndDelete query db = Resolved (r, db') -> Db_wf db'.
Proof.
  intros [Hp Hu Hpb Hub] Hcall.
  destruct (delete_call_cases _ _ _ _ Hcall)
    as (f & _ & Hdel & Husers & Hnext).
  pose proof (delete_first_nodup f (posts db) Hp) as Hnd.
  pose proof (delete_first_incl f (posts db)) as Hincl.
  rewrite Hdel in Hnd, Hincl. simpl in Hnd, Hincl.
  constructor.
  - exact Hnd.
  - rewrite Husers. exact Hu.
  - rewrite Hnext. intros q Hq. exact (Hpb q (Hincl q Hq)).
  - rewrite Husers, Hnext. exact Hub.
Qed.

Lemma handlers_keep_wf K h now req db :
  In h [create_post; list_posts; update_post; delete_post; index_page;
        register K; login K; logout;
        page "index.html"; page "register.html"; page "login.html"] ->
  Db_wf db -> Db_wf (db_after (h now req db)).
Proof.
  simpl. intros Hh Hwf.
  repeat (destruct Hh as [<-|Hh]); [..|contradiction].
  - unfold create_post.
    destruct (negb (truthy (b_text (body req)))
              || negb (String.eqb (typeof (b_text (body req))) "string"));
      [exact Hwf|].
    destruct (user req) as [u|]; [|exact Hwf].
    destruct (PostModel.create (userId u) (b_text (body req)) db)
      as [[d db']|] eqn:E; [|exact Hwf].
    exact (create_post_wf _ _ _ _ _ Hwf E).
  - unfold list_posts. destruct (user req); exact Hwf.
  - unfold update_post. destruct (user req) as [u|]; [|exact Hwf].
    destruct (PostModel.findOneAndUpdate _ _ db) as [[[q|] db']|] eqn:E;
      [| |exact Hwf]; exact (update_wf _ _ _ _ _ Hwf E).
  - unfold delete_post. destruct (user req) as [u|]; [|exact Hwf].
    destruct (PostModel.findOneAndDelete _ db) as [[[q|] db']|] eqn:E;
      [| |exact Hwf]; exact (delete_wf _ _ _ _ Hwf E).
  - unfold index_page. destruct (user req); exact Hwf.
  - unfold register.
    destruct (UserModel.findOne _ db) as [[u|]|]; [exact Hwf| |exact Hwf].
    destruct (UserModel.create _ _ _ db) as [[d db']|] eqn:E; [|exact Hwf].
    exact (create_user_wf _ _ _ _ _ _ Hwf E).
  - unfold login.
    destruct (UserModel.findOne _ db) as [[u|]|]; exact Hwf.
  - exact Hwf.
  - exact Hwf.
  - exact Hwf.
  - exact Hwf.
Qed.

(** X16. Every route of the application keeps the store well-formed:
    [_id]s stay unique within each collection and below the counter, whatever
    the request. *)
Theorem routes_keep_wf K route now req db :
  In route [GET_root; GET_register; GET_login; POST_post K; GET_posts K;
            PUT_posts K; DELETE_posts K; GET_index K; POST_register K;
            POST_login K; GET_logout] ->
  Db_wf db -> Db_wf (db_after (route now req db)).
Proof.
  intros Hroute Hwf.
  assert (Hguard : forall h,
            In h [create_post; list_posts; update_post; delete_post;
                  index_page] ->
            Db_wf (db_after (authenticateJWT K h now req db))
            /\ Db_wf (db_after (requireAuth K h now req db))).
  { intros h Hh. unfold authenticateJWT, requireAuth.
    destruct (session req) as [tok|]; [|split; exact Hwf].
    destruct (jwt.verify tok K now) as [e|decoded]; [split; exact Hwf|].
    split; apply (handlers_keep_wf K); trivial; simpl in *; tauto. }
  simpl in Hroute.
  repeat (destruct Hroute as [<-|Hroute]); [..|contradiction];
    try (apply (handlers_keep_wf K); [simpl; tauto | exact Hwf]);
    unfold POST_post, GET_posts, PUT_posts, DELETE_posts, GET_index;
    apply Hguard; simpl; tauto.
Qed.

(** * Further properties of the post routes *)

Lemma update_first_map {B} (g : Post.t -> B) f upd l :
  (forall d, g (upd d) = g d) ->
  map g (snd (update_first f upd l)) = map g l.
Proof.
  intros Hg. induction l as [|d ds IH]; simpl; [reflexivity|].
  destruct (f d); simpl.
  - rewrite Hg. reflexivity.
  - destruct (update_first f upd ds) as [r ds']. simpl in *.
    rewrite IH. reflexivity.
Qed.

(** A filter that rejects whatever [f] accepts does not see the update. *)
Lemma update_first_filter f upd g l :
  (forall d, f d = true -> g d = false) -> (forall d, g (upd d) = g d) ->
  filter g (snd (update_first f upd l)) = filter g l.
Proof.
  intros Hfg Hg. induction l as [|d ds IH]; simpl; [reflexivity|].
  destruct (f d) eqn:Hd; simpl.
  - rewrite Hg, (Hfg d Hd). reflexivity.
  - destruct (update_first f upd ds) as [r ds']. simpl in *.
    rewrite IH. reflexivity.
Qed.

Lemma delete_first_filter f g l :
  (forall d, f d = true -> g d = false) ->
  filter g (snd (delete_first f l)) = filter g l.
Proof.
  intros Hfg. induction l as [|d ds IH]; simpl; [reflexivity|].
  destruct (f d) eqn:Hd; simpl.
  - rewrite (Hfg d Hd). reflexivity.
  - destruct (delete_first f ds) as [r ds']. simpl in *.
    rewrite IH. reflexivity.
Qed.

Lemma update_first_idem f upd l :
  (forall d, f (upd d) = f d) -> (forall d, upd (upd d) = upd d) ->
  update_first f upd (snd (update_first f upd l)) = update_first f upd l.
Proof.
  intros Hf Hupd. induction l as [|d ds IH]; simpl; [reflexivity|].
  destruct (f d) eqn:Hd; simpl.
  - rewrite Hf, Hd, Hupd. reflexivity.
  - destruct (update_first f upd ds) as [r ds']. simpl in *.
    rewrite Hd, IH. reflexivity.
Qed.


(** Owner-scoped filters for different owners exclude each other. *)
Lemma is_post_not_other pid uid other d :
  other <> uid -> is_post pid uid d = true -> owned_by other d = false.
Proof.
  intros Hne Hd. apply is_post_true in Hd. destruct Hd as [_ Hown].
  unfold owned_by. apply N.eqb_neq. congruence.
Qed.



(** X2. Sending an Update again, while the token still verifies, changes
    nothing more: the second request leaves the outcome of the first,
    response, session and store. *)
Theorem update_post_idempotent K now1 now2 req db tok decoded :
  session req = Some tok ->
  jwt.verify tok K now1 = inr decoded ->
  jwt.verify tok K now2 = inr decoded ->
  PUT_posts K now2 req (db_after (PUT_posts K now1 req db))
  = PUT_posts K now1 req db.
Proof.
  intros Hs Hv1 Hv2. unfold PUT_posts.
  rewrite (authenticateJWT_pass _ _ _ _ _ _ _ Hs Hv1).
  rewrite (authenticateJWT_pass _ _ _ _ _ _ _ Hs Hv2).
  rewrite !update_post_authed.
  destruct (postId req) as [pid|]; cbn [post_filter]; [|reflexivity].
  unfold PostModel.findOneAndUpdate.
  destruct (cast_text (b_text (body req))) as [[v|]|]; [| |reflexivity].
  - pose proof (update_first_idem (is_post pid (userId decoded))
                  (set_text v) (posts db)
                  (fun d => eq_refl) (fun d => eq_refl)) as Hidem.
    destruct (update_first _ _ (posts db)) as [r ps] eqn:E1.
    simpl in Hidem.
    destruct r as [post|]; simpl; rewrite Hidem; reflexivity.
  - destruct (find _ (posts db)) eqn:E1; simpl; rewrite E1; reflexivity.
Qed.

Lemma update_post_idempotent_witness :
  let req := Sample.as_ Sample.alice_token (Sample.with_text (JStr "yo")) 2%N in
  PUT_posts Sample.key (Sample.t0 + 5000) req
    (db_after (PUT_posts Sample.key Sample.t0 req Sample.db))
  = PUT_posts Sample.key Sample.t0 req Sample.db.
Proof.
  intros req.
  apply (update_post_idempotent Sample.key Sample.t0 (Sample.t0 + 5000) req
           Sample.db Sample.alice_token (claims Sample.alice_token)
           eq_refl eq_refl eq_refl).
Defined.

(** An owner-scoped Update or Delete call does not reach the posts of
    another owner. *)
Lemma update_call_isolated pid uid other text db r db' :
  other <> uid ->
  PostModel.findOneAndUpdate (post_filter pid uid) text db = Resolved (r, db')
  ->
  filter (owned_by other) (posts db') = filter (owned_by other) (posts db)
  /\ users db' = users db.
Proof.
  intros Hne Hcall.
  destruct (update_call_cases _ _ _ _ _ Hcall)
    as (f & Hq & [(_ & -> & _)|(v & _ & Hup & Husers & _)]);
    [split; reflexivity|].
  split; [|exact Husers].
  destruct pid as [i|]; [|discriminate]. injection Hq as <-.
  pose proof (update_first_filter (is_post i uid) (set_text v)
                (owned_by other) (posts db)
                (fun d => is_post_not_other _ _ _ d Hne)
                (fun d => eq_refl)) as Hf.
  rewrite Hup in Hf. exact Hf.
Qed.

Lemma delete_call_isolated pid uid other db r db' :
  other <> uid ->
  PostModel.findOneAndDelete (post_filter pid uid) db = Resolved (r, db') ->
  filter (owned_by other) (posts db') = filter (owned_by other) (posts db)
  /\ users db' = users db.
Proof.
  intros Hne Hcall.
  destruct (delete_call_cases _ _ _ _ Hcall) as (f & Hq & Hdel & Husers & _).
  split; [|exact Husers].
  destruct pid as [i|]; [|discriminate]. injection Hq as <-.
  pose proof (delete_first_filter (is_post i uid) (owned_by other) (posts db)
                (fun d => is_post_not_other _ _ _ d Hne)) as Hf.
  rewrite Hdel in Hf. exact Hf.
Qed.

(** X3. A request to a post route changes no post of a user other than the
    one its token verifies to, and no user record: the posts of every other
    owner are, after the request, the ones before, in the same order.  A
    request that is not authenticated is held to this for every owner. *)
Theorem post_routes_isolated K route now req db other :
  In route [POST_post K; GET_posts K; PUT_posts K; DELETE_posts K] ->
  (forall tok decoded,
     session req = Some tok -> jwt.verify tok K now = inr decoded ->
     userId decoded <> other) ->
  filter (owned_by other) (posts (db_after (route now req db)))
  = filter (owned_by other) (posts db)
  /\ users (db_after (route now req db)) = users db.
Proof.
  intros Hroute Hother.
  assert (Hguard : forall h,
            (forall decoded r,
               userId decoded <> other -> user r = Some decoded ->
               filter (owned_by other) (posts (db_after (h now r db)))
               = filter (owned_by other) (posts db)
               /\ users (db_after (h now r db)) = users db) ->
            filter (owned_by other)
              (posts (db_after (authenticateJWT K h now req db)))
            = filter (owned_by other) (posts db)
            /\ users (db_after (authenticateJWT K h now req db)) = users db).
  { intros h Hh. unfold authenticateJWT, reply.
    destruct (session req) as [tok|] eqn:Hs; [|split; reflexivity].
    destruct (jwt.verify tok K now) as [e|decoded] eqn:Hv;
      [split; reflexivity|].
    apply (Hh decoded); [exact (Hother tok decoded eq_refl Hv) | reflexivity]. }
  simpl in Hroute. destruct Hroute as [<-|[<-|[<-|[<-|[]]]]];
    unfold POST_post, GET_posts, PUT_posts, DELETE_posts; apply Hguard;
    intros decoded r Hne Hu.
  - unfold create_post. rewrite Hu.
    destruct (negb (truthy (b_text (body r)))
              || negb (String.eqb (typeof (b_text (body r))) "string"));
      [split; reflexivity|].
    simpl. rewrite filter_app. simpl. unfold owned_by at 2. simpl.
    replace (N.eqb (userId decoded) other) with false
      by (symmetry; apply N.eqb_neq; exact Hne).
    rewrite app_nil_r. split; reflexivity.
  - unfold list_posts. rewrite Hu. split; reflexivity.
  - unfold update_post. rewrite Hu.
    destruct (PostModel.findOneAndUpdate _ _ db) as [[[q|] db']|] eqn:E;
      simpl; [| |split; reflexivity];
      exact (update_call_isolated _ _ _ _ _ _ _ (not_eq_sym Hne) E).
  - unfold delete_post. rewrite Hu.
    destruct (PostModel.findOneAndDelete _ db) as [[[q|] db']|] eqn:E;
      simpl; [| |split; reflexivity];
      exact (delete_call_isolated _ _ _ _ _ _ (not_eq_sym Hne) E).
Qed.

(** Alice's post through Bob's requests. *)
Lemma post_routes_isolated_witness :
  filter (owned_by 0%N)
    (posts
       (db_after
          (DELETE_posts Sample.key Sample.t0
             (Sample.as_ Sample.bob_token Sample.no_body 2%N) Sample.db)))
  = [Sample.hi].
Proof.
  apply (post_routes_isolated Sample.key (DELETE_posts Sample.key) Sample.t0
           (Sample.as_ Sample.bob_token Sample.no_body 2%N) Sample.db 0%N).
  - simpl. tauto.
  - intros tok decoded [= <-]. intros [= <-]. simpl. lia.
Defined.

(** A settled Update call keeps [_id]s, owners, users and counter. *)
Lemma update_call_frame query text db r db' :
  PostModel.findOneAndUpdate query text db = Resolved (r, db') ->
  map Post._id (posts db') = map Post._id (posts db)
  /\ map Post.userId (posts db') = map Post.userId (posts db)
  /\ users db' = users db
  /\ next_oid db' = next_oid db.
Proof.
  intros Hcall.
  destruct (update_call_cases _ _ _ _ _ Hcall)
    as (f & _ & [(_ & -> & _)|(v & _ & Hup & Husers & Hnext)]);
    [repeat split|].
  pose proof (update_first_map Post._id f (set_text v) (posts db)
                (fun d => eq_refl)) as Hid.
  pose proof (update_first_map Post.userId f (set_text v) (posts db)
                (fun d => eq_refl)) as Hown.
  rewrite Hup in Hid, Hown. repeat split; assumption.
Qed.

(** X4. An Update, whoever sends it and whatever it carries, changes at most
    texts: the [_id]s and the owners of the stored posts, their order and
    their number, the users and the counter are after it what they were. *)
Theorem update_changes_only_text K now req db :
  let db' := db_after (PUT_posts K now req db) in
  map Post._id (posts db') = map Post._id (posts db)
  /\ map Post.userId (posts db') = map Post.userId (posts db)
  /\ List.length (posts db') = List.length (posts db)
  /\ users db' = users db
  /\ next_oid db' = next_oid db.
Proof.
  intros db'.
  assert (Hmaps : map Post._id (posts db') = map Post._id (posts db)
                  /\ map Post.userId (posts db')
                     = map Post.userId (posts db)
                  /\ users db' = users db
                  /\ next_oid db' = next_oid db).
  { subst db'. unfold PUT_posts, authenticateJWT, reply.
    destruct (session req) as [tok|]; [|repeat split].
    destruct (jwt.verify tok K now) as [e|decoded]; [repeat split|].
    rewrite update_post_authed.
    destruct (PostModel.findOneAndUpdate _ _ db) as [[[q|] db1]|] eqn:E;
      simpl; [| |repeat split]; exact (update_call_frame _ _ _ _ _ E). }
  destruct Hmaps as (Hid & Hown & Hu & Hn).
  repeat split; try assumption.
  rewrite <- (List.length_map Post._id (posts db')), Hid.
  apply List.length_map.
Qed.

(** X5. What an author sees after a Create: an authenticated Create with a
    non-empty string as text puts the new post at the end of the author's
    List and leaves the List of every other user as it was. *)
Theorem create_then_list K now1 now2 req1 req2 db tok1 author tok2 reader s :
  session req1 = Some tok1 -> jwt.verify tok1 K now1 = inr author ->
  session req2 = Some tok2 -> jwt.verify tok2 K now2 = inr reader ->
  b_text (body req1) = JStr s -> s <> "" ->
  let created := Post.mk (next_oid db) (userId author) (JStr s) in
  let before := filter (owned_by (userId reader)) (posts db) in
  response (GET_posts K now2 req2 (db_after (POST_post K now1 req1 db)))
  = Json 200
      (PostList
         (if N.eqb (userId author) (userId reader)
          then before ++ [created] else before)).
Proof.
  intros Hs1 Hv1 Hs2 Hv2 Htext Hne created before.
  unfold POST_post, GET_posts.
  rewrite (authenticateJWT_pass _ _ _ _ _ _ _ Hs1 Hv1).
  rewrite (authenticateJWT_pass _ _ _ _ _ _ _ Hs2 Hv2).
  unfold create_post. simpl. rewrite Htext.
  assert (Hok : negb (truthy (JStr s))
                || negb (String.eqb (typeof (JStr s)) "string") = false)
    by (apply valid_text_iff; exists s; split; [reflexivity | exact Hne]).
  rewrite Hok. unfold list_posts, PostModel.find. simpl.
  rewrite filter_app. simpl. unfold owned_by at 2. simpl.
  fold created before.
  destruct (N.eqb (userId author) (userId reader));
    [reflexivity | rewrite app_nil_r; reflexivity].
Qed.

(** Alice posts "again" and lists; Bob lists. *)
Lemma create_then_list_witness :
  let post :=
    Sample.as_ Sample.alice_token (Sample.with_text (JStr "again")) 0%N in
  let after := db_after (POST_post Sample.key Sample.t0 post Sample.db) in
  response
    (GET_posts Sample.key Sample.t0
       (Sample.as_ Sample.alice_token Sample.no_body 0%N) after)
  = Json 200 (PostList [Sample.hi; Post.mk 3%N 0%N (JStr "again")])
  /\ response
       (GET_posts Sample.key Sample.t0
          (Sample.as_ Sample.bob_token Sample.no_body 0%N) after)
     = Json 200 (PostList []).
Proof.
  intros post after. split.
  - apply (create_then_list Sample.key Sample.t0 Sample.t0 post
             (Sample.as_ Sample.alice_token Sample.no_body 0%N) Sample.db
             Sample.alice_token (claims Sample.alice_token)
             Sample.alice_token (claims Sample.alice_token) "again"
             eq_refl eq_refl eq_refl eq_refl eq_refl).
    discriminate.
  - apply (create_then_list Sample.key Sample.t0 Sample.t0 post
             (Sample.as_ Sample.bob_token Sample.no_body 0%N) Sample.db
             Sample.alice_token (claims Sample.alice_token)
             Sample.bob_token (claims Sample.bob_token) "again"
             eq_refl eq_refl eq_refl eq_refl eq_refl).
    discriminate.
Defined.

(** * Further properties of registration, login and the guards *)

Lemma nodup_map_inj {A B} (f : A -> B) (l : list A) a b :
  NoDup (map f l) -> In a l -> In b l -> f a = f b -> a = b.
Proof.
  induction l as [|d ds IH]; intros Hnd Ha Hb Heq; [contradiction|].
  simpl in Hnd. inversion Hnd as [|x xs Hnotin Hnd']; subst.
  destruct Ha as [->|Ha], Hb as [->|Hb].
  - reflexivity.
  - exfalso. apply Hnotin. rewrite Heq. apply in_map. exact Hb.
  - exfalso. apply Hnotin. rewrite <- Heq. apply in_map. exact Ha.
  - exact (IH Hnd' Ha Hb Heq).
Qed.

Lemma nodup_snoc {A} (l : list A) (x : A) :
  NoDup l -> ~ In x l -> NoDup (l ++ [x]).
Proof.
  intros Hnd Hx. induction l as [|a l IH]; simpl.
  - constructor; [intros [] | constructor].
  - inversion Hnd as [|y ys Hnotin Hnd']; subst. constructor.
    + intros Hin. apply in_app_or in Hin. destruct Hin as [Hin|[<-|[]]].
      * exact (Hnotin Hin).
      * apply Hx. left. reflexivity.
    + apply IH; [exact Hnd'|]. intros Hin. apply Hx. right. exact Hin.
Qed.

Lemma same_name_or_email_false un em u :
  same_name_or_email un em u = false <->
  User.username u <> un /\ User.email u <> em.
Proof.
  unfold same_name_or_email. rewrite orb_false_iff, !String.eqb_neq.
  reflexivity.
Qed.

(** X6. Once a Register has gone through, a Register that repeats its
    username, or its email, answers 400 "User already exists" whatever its
    other fields are, and adds nothing. *)
Theorem register_twice K now1 now2 req1 req2 db :
  (forall u, In u (users db) ->
             User.username u <> b_username (body req1)
             /\ User.email u <> b_email (body req1)) ->
  b_username (body req2) = b_username (body req1)
  \/ b_email (body req2) = b_email (body req1) ->
  let db1 := db_after (POST_register K now1 req1 db) in
  List.length (users db1) = S (List.length (users db))
  /\ POST_register K now2 req2 db1
     = mkOutcome (Json 400 (Message "User already exists")) (session req2) db1.
Proof.
  intros Hfree Hsame db1. subst db1.
  rewrite (register_free K now1 req1 db Hfree). simpl. split.
  - rewrite length_app. simpl. lia.
  - apply register_taken
      with (u := User.mk (next_oid db) (b_username (body req1))
                   (b_email (body req1)) (b_password (body req1))).
    + simpl. apply in_or_app. right. left. reflexivity.
    + simpl. destruct Hsame as [->| ->]; [left | right]; reflexivity.
Qed.

(** "carol" registers; a second "carol" with another email is refused. *)
Lemma register_twice_witness :
  let first := Sample.anonymous (Sample.form "carol" "c@x.com" "pw3") in
  let again := Sample.anonymous (Sample.form "carol" "carol@y.org" "pw4") in
  let db1 := db_after (POST_register Sample.key Sample.t0 first Sample.db) in
  response (POST_register Sample.key (Sample.t0 + 1) again db1)
  = Json 400 (Message "User already exists").
Proof.
  intros first again db1.
  destruct (register_twice Sample.key Sample.t0 (Sample.t0 + 1) first again
              Sample.db) as [_ H].
  - intros u [<-|[<-|[]]]; split; discriminate.
  - left. reflexivity.
  - subst db1. rewrite H. reflexivity.
Defined.

(** X7. When usernames are unique, a Login with the username and the
    password of a stored user signs the token for that very user: its
    [userId] is the user's [_id]. *)
Theorem login_names_the_user K now req db u :
  NoDup (map User.username (users db)) ->
  In u (users db) ->
  User.username u = b_username (body req) ->
  User.password u = b_password (body req) ->
  POST_login K now req db
  = mkOutcome (Redirect (index_of (User.username u)))
      (Some (jwt.sign (User._id u) (User.username u) K now)) db.
Proof.
  intros Hnd Hin Hn Hp. unfold POST_login, login, UserModel.findOne.
  destruct (find _ (users db)) as [v|] eqn:Ef.
  - apply find_some in Ef. destruct Ef as [Hv Hm].
    apply same_name_and_password_true in Hm. destruct Hm as [Hvn _].
    assert (v = u)
      by (apply (nodup_map_inj User.username (users db)); congruence).
    subst v. reflexivity.
  - apply find_none with (x := u) in Ef; [|exact Hin].
    assert (same_name_and_password (b_username (body req))
              (b_password (body req)) u = true)
      by (apply same_name_and_password_true; split; assumption).
    congruence.
Qed.

Lemma login_names_the_user_witness :
  POST_login Sample.key Sample.t0
    (Sample.anonymous (Sample.form "bob" "" "hunter2")) Sample.db
  = mkOutcome (Redirect "/index?username=bob") (Some Sample.bob_token)
      Sample.db.
Proof.
  apply (login_names_the_user Sample.key Sample.t0
           (Sample.anonymous (Sample.form "bob" "" "hunter2")) Sample.db
           Sample.bob).
  - simpl. constructor; [intros [H|[]]; discriminate|].
    constructor; [intros [] | constructor].
  - right. left. reflexivity.
  - reflexivity.
  - reflexivity.
Defined.

(** X9. The window of a token, to the millisecond. A token signed at [t]
    (milliseconds) is accepted by both guards, which then run the handler
    with the signed claims as [req.user], at every instant before the end of
    second [t / 1000 + 3600], and refused from that instant on.  The window
    closes at most an hour after [t], and up to 999 ms sooner. *)
Theorem token_window K uid un t now req db :
  session req = Some (jwt.sign uid un K t) ->
  let deadline := (t / 1000 + 3600) * 1000 in
  let decoded := mkPayload uid un (t / 1000) (t / 1000 + 3600) in
  t + 3600 * 1000 - 999 <= deadline <= t + 3600 * 1000
  /\ (now < deadline ->
      forall next,
        authenticateJWT K next now req db = next now (set_user req decoded) db
        /\ requireAuth K next now req db = next now (set_user req decoded) db)
  /\ (deadline <= now ->
      forall next,
        authenticateJWT K next now req db
        = mkOutcome (Json 401 (Message "Invalid token")) (session req) db
        /\ requireAuth K next now req db
           = mkOutcome (Redirect "/login") (session req) db).
Proof.
  intros Hs deadline decoded.
  assert (Hmod : t = 1000 * (t / 1000) + t mod 1000)
    by (apply Z.div_mod; lia).
  assert (Hrange : 0 <= t mod 1000 < 1000) by (apply Z.mod_pos_bound; lia).
  split; [subst deadline; lia|]. split.
  - intros Hlt next.
    assert (Hv : jwt.verify (jwt.sign uid un K t) K now = inr decoded).
    { unfold jwt.verify, jwt.sign. simpl. rewrite String.eqb_refl. simpl.
      replace (jwt.seconds t + jwt.one_hour <=? jwt.seconds now) with false;
        [reflexivity|].
      symmetry. apply Z.leb_gt. unfold jwt.seconds, jwt.one_hour.
      apply Z.div_lt_upper_bound; [lia|]. subst deadline. lia. }
    unfold authenticateJWT, requireAuth. rewrite Hs, Hv. split; reflexivity.
  - intros Hge next.
    assert (Hv : jwt.verify (jwt.sign uid un K t) K now
                 = inl TokenExpiredError).
    { unfold jwt.verify, jwt.sign. simpl. rewrite String.eqb_refl. simpl.
      replace (jwt.seconds t + jwt.one_hour <=? jwt.seconds now) with true;
        [reflexivity|].
      symmetry. apply Z.leb_le. unfold jwt.seconds, jwt.one_hour.
      apply Z.div_le_lower_bound; [lia|]. subst deadline. lia. }
    unfold authenticateJWT, requireAuth, reply. rewrite Hs, Hv.
    split; reflexivity.
Qed.

(** Alice's token, signed at [t0], in the last millisecond of its window and
    in the first after it. *)
Lemma token_window_witness :
  let req := Sample.as_ Sample.alice_token Sample.no_body 0%N in
  GET_index Sample.key (Sample.t0 + 3600 * 1000 - 1) req Sample.db
    = mkOutcome (SendFile "index.html") (Some Sample.alice_token) Sample.db
  /\ GET_index Sample.key (Sample.t0 + 3600 * 1000) req Sample.db
     = mkOutcome (Redirect "/login") (Some Sample.alice_token) Sample.db.
Proof.
  intros req. split.
  - destruct (token_window Sample.key 0%N "alice" Sample.t0
                (Sample.t0 + 3600 * 1000 - 1) req Sample.db eq_refl)
      as (_ & Hin & _).
    unfold GET_index. rewrite (proj2 (Hin eq_refl index_page)). reflexivity.
  - destruct (token_window Sample.key 0%N "alice" Sample.t0
                (Sample.t0 + 3600 * 1000) req Sample.db eq_refl)
      as (_ & _ & Hout).
    unfold GET_index. apply Hout. discriminate.
Defined.

(** * The routes, one by one *)

(** Case analysis on what a guard lets through and on what the store
    answers. *)
Ltac open_route :=
  unfold GET_root, GET_register, GET_login, POST_post, GET_posts, PUT_posts,
    DELETE_posts, GET_index, POST_register, POST_login, GET_logout,
    authenticateJWT, requireAuth, page, logout, reply;
  repeat match goal with
    | |- context [match session ?r with _ => _ end] =>
        destruct (session r) eqn:?
    | |- context [match jwt.verify ?t ?k ?n with _ => _ end] =>
        destruct (jwt.verify t k n) eqn:?
    end.

(** What a route does to the users: nothing, unless it is a Register whose
    username and email are free, which appends the record of the body. *)
Lemma handler_of_users K r now req db :
  users (db_after (handler_of K r now req db)) = users db
  \/ (r = post_register
      /\ (forall u, In u (users db) ->
                    User.username u <> b_username (body req)
                    /\ User.email u <> b_email (body req))
      /\ users (db_after (handler_of K r now req db))
         = users db
           ++ [User.mk (next_oid db) (b_username (body req))
                 (b_email (body req)) (b_password (body req))]).
Proof.
  destruct r; simpl handler_of.
  - left. reflexivity.
  - left. reflexivity.
  - left. reflexivity.
  - left. open_route; try reflexivity. unfold create_post. simpl.
    destruct (negb _ || negb _); reflexivity.
  - left. open_route; reflexivity.
  - left. open_route; try reflexivity. rewrite update_post_authed.
    destruct (PostModel.findOneAndUpdate _ _ db) as [[[q|] db']|] eqn:E;
      simpl; try reflexivity;
      exact (proj1 (proj2 (proj2 (update_call_frame _ _ _ _ _ E)))).
  - left. open_route; try reflexivity. rewrite delete_post_authed.
    destruct (PostModel.findOneAndDelete _ db) as [[[q|] db']|] eqn:E;
      simpl; try reflexivity;
      destruct (delete_call_cases _ _ _ _ E) as (f & _ & _ & Husers & _);
      exact Husers.
  - left. open_route; reflexivity.
  - unfold POST_register, register, UserModel.findOne.
    destruct (find _ (users db)) as [v|] eqn:Ef; [left; reflexivity|].
    right. split; [reflexivity|]. split; [|reflexivity].
    intros u Hu. apply same_name_or_email_false.
    exact (find_none _ _ Ef u Hu).
  - left. unfold POST_login, login, UserModel.findOne.
    destruct (find _ (users db)); reflexivity.
  - left. reflexivity.
Qed.

(** What a route does to the session's token: nothing, unless it is Logout,
    which empties the slot, or a Login or Register that goes through, which
    puts there a token signed at that time for a user of the store it
    leaves. *)
Lemma handler_of_session K r now req db :
  let o := handler_of K r now req db in
  session_after o = session req
  \/ (r = get_logout /\ session_after o = None)
  \/ ((r = post_login \/ r = post_register)
      /\ exists u, In u (users (db_after o))
                   /\ session_after o
                      = Some (jwt.sign (User._id u) (User.username u) K now)).
Proof.
  destruct r; simpl.
  - left. reflexivity.
  - left. reflexivity.
  - left. reflexivity.
  - left. open_route; try reflexivity. unfold create_post. simpl.
    destruct (negb _ || negb _); assumption.
  - left. open_route; try reflexivity. assumption.
  - left. open_route; try reflexivity. rewrite update_post_authed.
    destruct (PostModel.findOneAndUpdate _ _ db) as [[[q|] db']|];
      assumption.
  - left. open_route; try reflexivity. rewrite delete_post_authed.
    destruct (PostModel.findOneAndDelete _ db) as [[[q|] db']|]; assumption.
  - left. open_route; try reflexivity. assumption.
  - unfold POST_register, register, UserModel.findOne.
    destruct (find _ (users db)) as [v|] eqn:Ef; [left; reflexivity|].
    right. right. split; [right; reflexivity|].
    exists (User.mk (next_oid db) (b_username (body req))
              (b_email (body req)) (b_password (body req))).
    split; [|reflexivity]. simpl. apply in_or_app. right. left. reflexivity.
  - unfold POST_login, login, UserModel.findOne.
    destruct (find _ (users db)) as [v|] eqn:Ef; [|left; reflexivity].
    right. right. split; [left; reflexivity|].
    exists v. split; [|reflexivity]. exact (proj1 (find_some _ _ Ef)).
  - right. left. split; reflexivity.
Qed.

(** Whose posts a route leaves in the store: each post has the owner of a
    post that was there, or the owner that the token of the session verifies
    to. *)
Lemma handler_of_owners K r now req db p :
  In p (posts (db_after (handler_of K r now req db))) ->
  (exists q, In q (posts db) /\ Post.userId q = Post.userId p)
  \/ (exists tok decoded,
        session req = Some tok /\ jwt.verify tok K now = inr decoded
        /\ Post.userId p = userId decoded).
Proof.
  assert (Hsame : In p (posts db) ->
            (exists q, In q (posts db) /\ Post.userId q = Post.userId p)
            \/ (exists tok decoded,
                  session req = Some tok /\ jwt.verify tok K now = inr decoded
                  /\ Post.userId p = userId decoded)).
  { intros Hp. left. exists p. split; [exact Hp | reflexivity]. }
  destruct r; simpl handler_of.
  - exact Hsame.
  - exact Hsame.
  - exact Hsame.
  - open_route; try exact Hsame. unfold create_post. simpl.
    destruct (negb _ || negb _); [exact Hsame|]. simpl.
    intros Hp. apply in_app_or in Hp. destruct Hp as [Hp|[<-|[]]].
    + exact (Hsame Hp).
    + right. eexists _, _. split; [reflexivity|]. split; [eassumption|].
      reflexivity.
  - open_route; exact Hsame.
  - open_route; try exact Hsame. rewrite update_post_authed.
    destruct (PostModel.findOneAndUpdate _ _ db) as [[[q|] db']|] eqn:E;
      simpl; try exact Hsame;
      destruct (update_call_frame _ _ _ _ _ E) as (_ & Hown & _);
      intros Hp; apply (in_map Post.userId) in Hp;
      rewrite Hown in Hp; apply in_map_iff in Hp;
      destruct Hp as (d & Hd & Hdin); left; exists d; split; assumption.
  - open_route; try exact Hsame. rewrite delete_post_authed.
    destruct (PostModel.findOneAndDelete _ db) as [[[q|] db']|] eqn:E;
      simpl; try exact Hsame;
      destruct (delete_call_cases _ _ _ _ E) as (f & _ & Hdel & _);
      pose proof (delete_first_incl f (posts db) p) as Hincl;
      rewrite Hdel in Hincl; intros Hp; exact (Hsame (Hincl Hp)).
  - open_route; exact Hsame.
  - unfold POST_register, register, UserModel.findOne.
    destruct (find _ (users db)); exact Hsame.
  - unfold POST_login, login, UserModel.findOne.
    destruct (find _ (users db)); exact Hsame.
  - exact Hsame.
Qed.

Lemma handler_of_wf K r now req db :
  Db_wf db -> Db_wf (db_after (handler_of K r now req db)).
Proof.
  intros Hwf.
  assert (Hh : forall h r',
            In h [create_post; list_posts; update_post; delete_post;
                  index_page; register K; login K; logout;
                  page "index.html"; page "register.html";
                  page "login.html"] ->
            Db_wf (db_after (h now r' db)))
    by (intros h r' Hin; exact (handlers_keep_wf K h now r' db Hin Hwf)).
  destruct r; simpl handler_of; open_route; try exact Hwf;
    apply Hh; simpl; tauto.
Qed.

(** [register] is its lookup followed, when the lookup finds nobody, by its
    save. *)
Lemma register_in_two_steps K now req db :
  register K now req db
  = match register_lookup req db with
    | Some answer => answer
    | None => register_save K now req db
    end.
Proof.
  unfold register, register_lookup, register_save, UserModel.findOne.
  destruct (find _ (users db)); reflexivity.
Qed.

(** X10. Registration does not keep usernames, or emails, unique when two
    requests overlap. The lookup and the save of [register] are separate
    awaited calls and the store has no unique index: when two Registers with
    the same username, or the same email, both do their lookup before either
    saves, both lookups find nobody, both saves go through with the
    redirect, and the store ends with the two records, whereas the same two
    requests one after the other leave one record and answer the second
    with 400. *)
Theorem register_race K now1 now2 req1 req2 db :
  (forall u, In u (users db) ->
             User.username u <> b_username (body req1)
             /\ User.email u <> b_email (body req1)) ->
  (forall u, In u (users db) ->
             User.username u <> b_username (body req2)
             /\ User.email u <> b_email (body req2)) ->
  b_username (body req2) = b_username (body req1)
  \/ b_email (body req2) = b_email (body req1) ->
  let first :=
    User.mk (next_oid db) (b_username (body req1)) (b_email (body req1))
      (b_password (body req1)) in
  let second :=
    User.mk (N.succ (next_oid db)) (b_username (body req2))
      (b_email (body req2)) (b_password (body req2)) in
  let o1 := register_save K now1 req1 db in
  let o2 := register_save K now2 req2 (db_after o1) in
  register_lookup req1 db = None /\ register_lookup req2 db = None
  /\ response o1 = Redirect (index_of (b_username (body req1)))
  /\ response o2 = Redirect (index_of (b_username (body req2)))
  /\ users (db_after o2) = users db ++ [first; second]
  /\ ~ users_unique (db_after o2)
  /\ response (register K now2 req2 (db_after (register K now1 req1 db)))
     = Json 400 (Message "User already exists").
Proof.
  intros Hfree1 Hfree2 Hsame first second o1 o2.
  assert (Hlook : forall req,
            (forall u, In u (users db) ->
                       User.username u <> b_username (body req)
                       /\ User.email u <> b_email (body req)) ->
            register_lookup req db = None).
  { intros req Hfree. unfold register_lookup, UserModel.findOne.
    replace (find _ (users db)) with (@None User.t); [reflexivity|].
    symmetry. apply find_none_iff. intros x Hx.
    apply same_name_or_email_false. exact (Hfree x Hx). }
  assert (Husers : users (db_after o2) = users db ++ [first; second]).
  { subst o2 o1. unfold register_save, UserModel.create. simpl.
    rewrite <- app_assoc. reflexivity. }
  split; [exact (Hlook req1 Hfree1)|]. split; [exact (Hlook req2 Hfree2)|].
  split; [reflexivity|]. split; [reflexivity|]. split; [exact Husers|].
  split.
  - intros [Hn He]. rewrite Husers, !map_app in Hn, He. simpl in Hn, He.
    apply NoDup_remove_2 in Hn. apply NoDup_remove_2 in He.
    destruct Hsame as [Hsame|Hsame]; [apply Hn | apply He];
      apply in_or_app; right; left; exact Hsame.
  - rewrite (register_in_two_steps K now1 req1 db), (Hlook req1 Hfree1).
    rewrite (register_in_two_steps K now2 req2).
    unfold register_lookup, UserModel.findOne.
    destruct (find _ (users (db_after _))) as [v|] eqn:Ef; [reflexivity|].
    exfalso. apply find_none with (x := first) in Ef.
    + apply same_name_or_email_false in Ef. simpl in Ef.
      destruct Ef as [Hn He]. destruct Hsame as [Hs|Hs]; congruence.
    + unfold register_save, UserModel.create. simpl.
      apply in_or_app. right. left. reflexivity.
Qed.

(** Two clients register "carol" at once, each with an email of its own. *)
Lemma register_race_witness :
  let one := Sample.anonymous (Sample.form "carol" "c@x.com" "pw3") in
  let two := Sample.anonymous (Sample.form "carol" "carol@y.org" "pw4") in
  let o1 := register_save Sample.key Sample.t0 one Sample.db in
  let o2 := register_save Sample.key (Sample.t0 + 1) two (db_after o1) in
  register_lookup one Sample.db = None /\ register_lookup two Sample.db = None
  /\ map User.username (users (db_after o2))
     = ["alice"; "bob"; "carol"; "carol"].
Proof.
  intros one two o1 o2.
  destruct (register_race Sample.key Sample.t0 (Sample.t0 + 1) one two
              Sample.db) as (H1 & H2 & _ & _ & Husers & _).
  - intros u [<-|[<-|[]]]; split; discriminate.
  - intros u [<-|[<-|[]]]; split; discriminate.
  - left. reflexivity.
  - split; [exact H1|]. split; [exact H2|].
    subst o2 o1. rewrite Husers. reflexivity.
Defined.

(** X11. Accounts and posts are kept apart, and accounts are kept for good:
    every route leaves the stored users as a prefix of the users after it;
    only Register changes the users; only Create, Update and Delete change
    the posts. *)
Theorem accounts_and_posts_apart K r now req db :
  let db' := db_after (handler_of K r now req db) in
  (exists added, users db' = users db ++ added /\ (List.length added <= 1)%nat)
  /\ (r <> post_register -> users db' = users db)
  /\ (r <> post_post -> r <> put_posts -> r <> delete_posts ->
      posts db' = posts db).
Proof.
  intros db'. subst db'. split; [|split].
  - destruct (handler_of_users K r now req db) as [Hsame|(_ & _ & Hadd)].
    + exists []. rewrite app_nil_r. split; [exact Hsame | simpl; lia].
    + eexists. split; [exact Hadd | simpl; lia].
  - intros Hr.
    destruct (handler_of_users K r now req db) as [Hsame|(Hreg & _)];
      [exact Hsame | contradiction].
  - intros Hc Hu Hd. destruct r; try contradiction; simpl handler_of;
      open_route; try reflexivity.
    + unfold POST_register, register, UserModel.findOne.
      destruct (find _ (users db)); reflexivity.
    + unfold POST_login, login, UserModel.findOne.
      destruct (find _ (users db)); reflexivity.
Qed.

(** Dispatching to a route that is not Register keeps the users. *)
Lemma accounts_and_posts_apart_witness :
  users
    (db_after
       (handler_of Sample.key delete_posts Sample.t0
          (Sample.as_ Sample.alice_token Sample.no_body 2%N) Sample.db))
  = users Sample.db.
Proof.
  apply (accounts_and_posts_apart Sample.key delete_posts Sample.t0
           (Sample.as_ Sample.alice_token Sample.no_body 2%N) Sample.db).
  discriminate.
Defined.

(** * The server over time *)

Lemma users_grow K r now req db u :
  In u (users db) -> In u (users (db_after (handler_of K r now req db))).
Proof.
  intros Hu.
  destruct (handler_of_users K r now req db) as [->|(_ & _ & ->)];
    [exact Hu | apply in_or_app; left; exact Hu].
Qed.

Lemma token_names_user_grow K r now req db tok :
  token_names_user K db tok ->
  token_names_user K (db_after (handler_of K r now req db)) tok.
Proof.
  intros (Hk & u & Hu & Hid & Hn). split; [exact Hk|].
  exists u. split; [apply users_grow; exact Hu | split; assumption].
Qed.

Lemma fresh_server_consistent K : Consistent K fresh_server.
Proof.
  constructor; simpl.
  - exact empty_db_wf.
  - intros sid tok. discriminate.
  - intros p [].
Qed.

Lemma serve_consistent K now rq sv :
  Consistent K sv -> Consistent K (snd (serve K now rq sv)).
Proof.
  intros [Hwf Htok Hown]. unfold serve. simpl.
  set (req := mkReq (sessions sv (cookie rq)) (form rq) (target rq) None).
  constructor; simpl.
  - apply handler_of_wf. exact Hwf.
  - intros sid tok.
    destruct (Nat.eqb sid (cookie rq)) eqn:Esid.
    + intros Hafter.
      destruct (handler_of_session K (route rq) now req (store sv))
        as [Hkeep|[(_ & Hnone)|(_ & u & Hu & Hnew)]].
      * apply token_names_user_grow. apply (Htok (cookie rq)).
        rewrite <- Hafter, Hkeep. reflexivity.
      * congruence.
      * rewrite Hnew in Hafter. injection Hafter as <-.
        split; [reflexivity|]. exists u.
        split; [exact Hu | split; reflexivity].
    + intros Hold. apply token_names_user_grow. exact (Htok sid tok Hold).
  - intros p Hp.
    destruct (handler_of_owners K (route rq) now req (store sv) p Hp)
      as [(q & Hq & Heq)|(tok & decoded & Hs & Hv & Heq)].
    + destruct (Hown q Hq) as (u & Hu & Hid).
      exists u. split; [apply users_grow; exact Hu | congruence].
    + apply verify_inr in Hv. destruct Hv as (-> & _ & _).
      destruct (Htok (cookie rq) tok Hs) as (_ & u & Hu & Hid & _).
      exists u. split; [apply users_grow; exact Hu | congruence].
Qed.

Lemma run_cons K now rq rest sv :
  snd (run K ((now, rq) :: rest) sv)
  = snd (run K rest (snd (serve K now rq sv))).
Proof.
  cbn [run]. destruct (serve K now rq sv) as [r sv']. cbn [snd].
  destruct (run K rest sv') as [rs sv'']. reflexivity.
Qed.

(** X12. What the server keeps, whatever the requests. Starting from a
    consistent server, the fresh one for instance, and after any sequence of
    requests to any routes: [_id]s are unique, the token of every session
    was signed with the server's key for the [_id] and username of a stored
    user, and every stored post is owned by a stored user. *)
Theorem run_keeps_consistent K trace :
  Consistent K (snd (run K trace fresh_server))
  /\ forall sv, Consistent K sv -> Consistent K (snd (run K trace sv)).
Proof.
  assert (Hrun : forall sv,
            Consistent K sv -> Consistent K (snd (run K trace sv))).
  { induction trace as [|[now rq] rest IH]; intros sv Hsv; [exact Hsv|].
    rewrite run_cons. apply IH. apply serve_consistent. exact Hsv. }
  split; [apply Hrun; apply fresh_server_consistent | exact Hrun].
Qed.

(** The scenario of the specification, as requests of two clients: "alice"
    registers, logs in and posts "hi"; "bob" registers and tries to delete
    her post. *)
Lemma run_keeps_consistent_witness :
  let alice := Sample.form "alice" "a@x.com" "pw" in
  let bob := Sample.form "bob" "b@x.com" "hunter2" in
  let trace :=
    [ (Sample.t0, mkRequest post_register 1%nat alice None);
      (Sample.t0 + 1000, mkRequest post_login 1%nat alice None);
      (Sample.t0 + 2000,
       mkRequest post_post 1%nat (Sample.with_text (JStr "hi")) None);
      (Sample.t0 + 3000, mkRequest post_register 2%nat bob None);
      (Sample.t0 + 4000,
       mkRequest delete_posts 2%nat Sample.no_body (Some 1%N)) ]
  in
  List.map status_of (fst (run Sample.key trace fresh_server))
    = [302; 302; 201; 302; 404]%nat
  /\ Consistent Sample.key (snd (run Sample.key trace fresh_server)).
Proof.
  intros alice bob trace. split; [reflexivity|].
  apply (proj2 (run_keeps_consistent Sample.key trace) fresh_server).
  apply fresh_server_consistent.
Defined.

Lemma run_cons_fst K now rq rest sv :
  fst (run K ((now, rq) :: rest) sv)
  = fst (serve K now rq sv) :: fst (run K rest (snd (serve K now rq sv))).
Proof.
  cbn [run]. destruct (serve K now rq sv) as [r sv']. cbn [fst snd].
  destruct (run K rest sv') as [rs sv'']. reflexivity.
Qed.

(** A session without a token stays without one through a request that is
    not a Login or a Register of its own, and gets the guards' refusal. *)
Lemma serve_logged_out K now rq sv c :
  sessions sv c = None ->
  (cookie rq = c -> route rq <> post_login /\ route rq <> post_register) ->
  sessions (snd (serve K now rq sv)) c = None
  /\ (cookie rq = c ->
      (In (route rq) [post_post; get_posts; put_posts; delete_posts] ->
       fst (serve K now rq sv) = Json 401 (Message "Unauthorized"))
      /\ (route rq = get_index -> fst (serve K now rq sv) = Redirect "/login")).
Proof.
  intros Hnone Hroute. unfold serve. simpl. split.
  - destruct (Nat.eqb c (cookie rq)) eqn:Ec; [|exact Hnone].
    apply Nat.eqb_eq in Ec. symmetry in Ec.
    destruct (Hroute Ec) as [Hl Hr].
    destruct (handler_of_session K (route rq) now
                (mkReq (sessions sv (cookie rq)) (form rq) (target rq) None)
                (store sv))
      as [Hkeep|[(_ & Hout)|([Hx|Hx] & _)]]; try contradiction.
    + rewrite Hkeep. simpl. rewrite Ec. exact Hnone.
    + exact Hout.
  - intros Ec. rewrite Ec, Hnone. split.
    + simpl. intros [<-|[<-|[<-|[<-|[]]]]]; reflexivity.
    + intros ->. reflexivity.
Qed.

(** X8. Logout lasts until the next Login or Register of that session.
    After a Logout on a cookie, and through any later requests among which
    none on that cookie is a Login or a Register, the session of the cookie
    holds no token, and each of its requests to a post route is answered 401
    "Unauthorized" and each to [GET /index] with the redirect to [/login],
    whatever the other sessions do meanwhile. *)
Theorem logged_out_until_login K now0 b0 pid0 c sv trace :
  (forall now rq,
     In (now, rq) trace -> cookie rq = c ->
     route rq <> post_login /\ route rq <> post_register) ->
  let sv1 := snd (serve K now0 (mkRequest get_logout c b0 pid0) sv) in
  sessions (snd (run K trace sv1)) c = None
  /\ Forall2
       (fun (step : Z * Request) (r : Response) =>
          cookie (snd step) = c ->
          (In (route (snd step))
              [post_post; get_posts; put_posts; delete_posts] ->
           r = Json 401 (Message "Unauthorized"))
          /\ (route (snd step) = get_index -> r = Redirect "/login"))
       trace (fst (run K trace sv1)).
Proof.
  intros Hquiet sv1.
  assert (Hout : sessions sv1 c = None).
  { subst sv1. unfold serve. simpl. rewrite Nat.eqb_refl. reflexivity. }
  clearbody sv1. revert sv1 Hout.
  induction trace as [|[now rq] rest IH]; intros sv1 Hout.
  - split; [exact Hout | constructor].
  - assert (Hrq : cookie rq = c ->
                  route rq <> post_login /\ route rq <> post_register)
      by (apply (Hquiet now rq); left; reflexivity).
    destruct (serve_logged_out K now rq sv1 c Hout Hrq) as [Hnext Hresp].
    destruct (IH (fun n r Hin => Hquiet n r (or_intror Hin))
                (snd (serve K now rq sv1)) Hnext) as [Hend Hall].
    rewrite run_cons, run_cons_fst. split; [exact Hend|].
    constructor; [exact Hresp | exact Hall].
Qed.

(** Alice logs out; Bob then logs in on his cookie, and Alice's session asks
    for her posts. *)
Lemma logged_out_until_login_witness :
  let sv := mkServer Sample.db (fun _ => Some Sample.alice_token) in
  let trace :=
    [ (Sample.t0 + 10,
       mkRequest post_login 2%nat (Sample.form "bob" "" "hunter2") None);
      (Sample.t0 + 20, mkRequest get_posts 1%nat Sample.no_body None) ] in
  let sv1 :=
    snd (serve Sample.key Sample.t0
           (mkRequest get_logout 1%nat Sample.no_body None) sv) in
  sessions (snd (run Sample.key trace sv1)) 1%nat = None.
Proof.
  intros sv trace sv1.
  apply (logged_out_until_login Sample.key Sample.t0 Sample.no_body None
           1%nat sv trace).
  intros now rq [[= <- <-]|[[= <- <-]|[]]]; simpl; intros Hc;
    [discriminate | split; discriminate].
Defined.

Lemma run_users_grow K trace sv u :
  In u (users (store sv)) -> In u (users (store (snd (run K trace sv)))).
Proof.
  revert sv. induction trace as [|[now rq] rest IH]; intros sv Hu;
    [exact Hu|].
  rewrite run_cons. apply IH. unfold serve. simpl.
  apply users_grow. exact Hu.
Qed.

(** X13. An account is for good. Whatever requests the server gets, a stored
    user stays stored with the same record, and a Login with the username
    and the password of that user is then answered with the redirect to the
    index page of that username. *)
Theorem account_survives K trace sv u now c b pid :
  In u (users (store sv)) ->
  b_username b = User.username u -> b_password b = User.password u ->
  let sv' := snd (run K trace sv) in
  In u (users (store sv'))
  /\ fst (serve K now (mkRequest post_login c b pid) sv')
     = Redirect (index_of (User.username u)).
Proof.
  intros Hu Hn Hp sv'.
  assert (Hu' : In u (users (store sv')))
    by (apply run_users_grow; exact Hu).
  split; [exact Hu'|].
  unfold serve. simpl. unfold POST_login, login, UserModel.findOne. simpl.
  destruct (find _ (users (store sv'))) as [v|] eqn:Ef.
  - apply find_some in Ef. destruct Ef as [_ Hm].
    apply same_name_and_password_true in Hm. destruct Hm as [Hvn _].
    simpl. rewrite Hvn, Hn. reflexivity.
  - apply find_none with (x := u) in Ef; [|exact Hu'].
    assert (same_name_and_password (b_username b) (b_password b) u = true)
      by (apply same_name_and_password_true; split; congruence).
    congruence.
Qed.

(** Bob still logs in after Alice has deleted her post and logged out. *)
Lemma account_survives_witness :
  let sv := mkServer Sample.db (fun _ => Some Sample.alice_token) in
  let trace :=
    [ (Sample.t0, mkRequest delete_posts 1%nat Sample.no_body (Some 2%N));
      (Sample.t0 + 1, mkRequest get_logout 1%nat Sample.no_body None) ] in
  fst (serve Sample.key (Sample.t0 + 2)
         (mkRequest post_login 2%nat (Sample.form "bob" "" "hunter2") None)
         (snd (run Sample.key trace sv)))
  = Redirect "/index?username=bob".
Proof.
  intros sv trace.
  apply (account_survives Sample.key trace sv Sample.bob (Sample.t0 + 2)
           2%nat (Sample.form "bob" "" "hunter2") None).
  - right. left. reflexivity.
  - reflexivity.
  - reflexivity.
Defined.



(** A Create keeps the sample store well-formed. *)
Lemma routes_keep_wf_witness :
  Db_wf
    (db_after
       (POST_post Sample.key Sample.t0
          (Sample.as_ Sample.alice_token (Sample.with_text (JStr "two")) 0%N)
          Sample.db)).
Proof.
  apply (routes_keep_wf Sample.key (POST_post Sample.key) Sample.t0
           (Sample.as_ Sample.alice_token (Sample.with_text (JStr "two")) 0%N)
           Sample.db).
  - simpl. tauto.
  - constructor; simpl.
    + constructor; [intros [] | constructor].
    + constructor; [intros [H|[]]; discriminate|].
      constructor; [intros [] | constructor].
    + intros p [<-|[]]. reflexivity.
    + intros u [<-|[<-|[]]]; reflexivity.
Defined.

Lemma verify_before_deadline uid un K t now :
  now < (t / 1000 + 3600) * 1000 ->
  jwt.verify (jwt.sign uid un K t) K now
  = inr (mkPayload uid un (t / 1000) (t / 1000 + 3600)).
Proof.
  intros Hlt. unfold jwt.verify, jwt.sign. simpl.
  rewrite String.eqb_refl. simpl.
  replace (jwt.seconds t + jwt.one_hour <=? jwt.seconds now) with false;
    [reflexivity|].
  symmetry. apply Z.leb_gt. unfold jwt.seconds, jwt.one_hour.
  apply Z.div_lt_upper_bound; lia.
Qed.

Lemma filter_none {A} (f : A -> bool) l :
  (forall x, In x l -> f x = false) -> filter f l = [].
Proof.
  induction l as [|a l IH]; intros Hall; simpl; [reflexivity|].
  rewrite (Hall a (or_introl eq_refl)). apply IH.
  intros x Hx. apply Hall. right. exact Hx.
Qed.

(** In a consistent server no post is owned by the identifier that the next
    document will get. *)
Lemma next_oid_owns_nothing K sv :
  Consistent K sv ->
  filter (owned_by (next_oid (store sv))) (posts (store sv)) = [].
Proof.
  intros [Hwf _ Hown]. apply filter_none. intros p Hp.
  destruct (Hown p Hp) as (u & Hu & Hid).
  pose proof (wf_user_bound _ Hwf u Hu) as Hlt.
  unfold owned_by. apply N.eqb_neq. rewrite <- Hid. lia.
Qed.

(** X15. A new account, from registration to its first post. On a consistent
    server, a Register with a free username and email logs its session in:
    within the window of the token, a List in that session answers with the
    empty list, whatever posts the others have, and after a Create with a
    non-empty text the List is exactly that post, owned by the new user. *)
Theorem new_account_flow K sv c now1 now2 now3 b1 pid1 b2 pid2 b3 pid3 s :
  Consistent K sv ->
  (forall u, In u (users (store sv)) ->
             User.username u <> b_username b1 /\ User.email u <> b_email b1) ->
  now2 < (now1 / 1000 + 3600) * 1000 ->
  now3 < (now1 / 1000 + 3600) * 1000 ->
  b_text b2 = JStr s -> s <> "" ->
  let me := next_oid (store sv) in
  let sv1 := snd (serve K now1 (mkRequest post_register c b1 pid1) sv) in
  let sv2 := snd (serve K now2 (mkRequest post_post c b2 pid2) sv1) in
  fst (serve K now2 (mkRequest get_posts c b3 pid3) sv1)
    = Json 200 (PostList [])
  /\ fst (serve K now2 (mkRequest post_post c b2 pid2) sv1)
     = Json 201
         (MessageWith "Post created successfully" "post"
            (Post.mk (N.succ me) me (JStr s)))
  /\ fst (serve K now3 (mkRequest get_posts c b3 pid3) sv2)
     = Json 200 (PostList [Post.mk (N.succ me) me (JStr s)]).
Proof.
  intros Hcons Hfree Hw2 Hw3 Htext Hne me sv1 sv2.
  pose proof (next_oid_owns_nothing K sv Hcons) as Hempty. fold me in Hempty.
  set (req1 := mkReq (sessions sv c) b1 pid1 None).
  pose proof (register_free K now1 req1 (store sv) Hfree) as Hreg.
  simpl in Hreg. fold me in Hreg.
  set (tok := jwt.sign me (b_username b1) K now1) in *.
  set (db1 := mkDb
                (users (store sv)
                 ++ [User.mk me (b_username b1) (b_email b1) (b_password b1)])
                (posts (store sv)) (N.succ me)) in *.
  assert (Hsv1 : store sv1 = db1 /\ sessions sv1 c = Some tok).
  { subst sv1. unfold serve. cbn [snd store sessions route cookie form target
                                   handler_of].
    fold req1. rewrite Hreg. simpl. rewrite Nat.eqb_refl.
    split; reflexivity. }
  destruct Hsv1 as [Hdb1 Htok1].
  set (decoded := mkPayload me (b_username b1) (now1 / 1000)
                    (now1 / 1000 + 3600)).
  assert (Hok : negb (truthy (JStr s))
                || negb (String.eqb (typeof (JStr s)) "string") = false)
    by (apply valid_text_iff; exists s; split; [reflexivity | exact Hne]).
  assert (Hcreate : POST_post K now2 (mkReq (Some tok) b2 pid2 None) db1
            = mkOutcome
                (Json 201
                   (MessageWith "Post created successfully" "post"
                      (Post.mk (N.succ me) me (JStr s))))
                (Some tok)
                (mkDb (users db1)
                   (posts db1 ++ [Post.mk (N.succ me) me (JStr s)])
                   (N.succ (N.succ me)))).
  { unfold POST_post.
    rewrite (authenticateJWT_pass K create_post now2
               (mkReq (Some tok) b2 pid2 None) db1 tok decoded eq_refl
               (verify_before_deadline _ _ _ _ _ Hw2)).
    unfold create_post. simpl. rewrite Htext, Hok. reflexivity. }
  split; [|split].
  - unfold serve. cbn [fst route cookie form target handler_of].
    rewrite Htok1, Hdb1. unfold GET_posts.
    rewrite (authenticateJWT_pass K list_posts now2
               (mkReq (Some tok) b3 pid3 None) db1 tok decoded eq_refl
               (verify_before_deadline _ _ _ _ _ Hw2)).
    unfold list_posts, PostModel.find. simpl. rewrite Hempty. reflexivity.
  - unfold serve. cbn [fst route cookie form target handler_of].
    rewrite Htok1, Hdb1, Hcreate. reflexivity.
  - assert (Hsv2 : store sv2
                   = mkDb (users db1)
                       (posts db1 ++ [Post.mk (N.succ me) me (JStr s)])
                       (N.succ (N.succ me))
                   /\ sessions sv2 c = Some tok).
    { subst sv2. unfold serve. cbn [snd store sessions route cookie form
                                     target handler_of].
      rewrite Htok1, Hdb1, Hcreate. simpl. rewrite Nat.eqb_refl.
      split; reflexivity. }
    destruct Hsv2 as [Hdb2 Htok2].
    unfold serve. cbn [fst route cookie form target handler_of].
    rewrite Htok2, Hdb2. unfold GET_posts.
    rewrite (authenticateJWT_pass K list_posts now3
               (mkReq (Some tok) b3 pid3 None) _ tok decoded eq_refl
               (verify_before_deadline _ _ _ _ _ Hw3)).
    unfold list_posts, PostModel.find. simpl.
    rewrite filter_app, Hempty. simpl.
    unfold owned_by. simpl. rewrite N.eqb_refl. reflexivity.
Qed.

(** "carol" joins the sample deployment, lists, posts and lists again. *)
Lemma new_account_flow_witness :
  let sv := mkServer Sample.db (fun _ => None) in
  let carol := Sample.form "carol" "c@x.com" "pw3" in
  let sv1 :=
    snd (serve Sample.key Sample.t0 (mkRequest post_register 7%nat carol None)
           sv) in
  fst (serve Sample.key (Sample.t0 + 5)
         (mkRequest get_posts 7%nat Sample.no_body None) sv1)
  = Json 200 (PostList []).
Proof.
  intros sv carol sv1.
  assert (Hcons : Consistent Sample.key sv).
  { constructor; simpl.
    - constructor; simpl.
      + constructor; [intros [] | constructor].
      + constructor; [intros [H|[]]; discriminate|].
        constructor; [intros [] | constructor].
      + intros p [<-|[]]. reflexivity.
      + intros u [<-|[<-|[]]]; reflexivity.
    - intros sid tok. discriminate.
    - intros p [<-|[]]. exists Sample.alice.
      split; [left; reflexivity | reflexivity]. }
  destruct (new_account_flow Sample.key sv 7%nat Sample.t0 (Sample.t0 + 5)
              (Sample.t0 + 9) carol None (Sample.with_text (JStr "first"))
              None Sample.no_body None "first" Hcons) as (Hlist & _).
  - intros u [<-|[<-|[]]]; split; discriminate.
  - reflexivity.
  - reflexivity.
  - reflexivity.
  - discriminate.
  - exact Hlist.
Defined.
